(** * audcog-great-minds: the age-histogram pipeline and the git helper

    A shallow embedding of [audcog_agm_agehistogram.py] and
    [push_to_github.py].

    - JSON values are the Python objects [json.load] returns.  A [dict] is
      an association list in insertion order (Python dicts iterate in
      insertion order); [json.load] never produces a repeated key, and the
      statements that depend on that carry a [NoDup] hypothesis on the keys.
    - A string stands for a Python string by its UTF-8 encoding; where the
      code looks at characters ([\d], [int], [len]) the model decodes it.
    - Exceptions are values of [exn]; a computation that may raise returns
      [res].  The script body runs in a small monad over the [world] (what
      was printed, the export file, and the results of the stages that ran
      to completion), so that what was printed before an exception stays
      printed.
    - pandas and matplotlib are outside the repository: a data frame is the
      list of its rows with the column index pandas derives from them, and
      the plotting/statistics calls are section variables that either
      return or raise. *)

From Stdlib Require Import List String Ascii ZArith Bool Arith Lia.
From Stdlib Require Import Floats.SpecFloat.
Import ListNotations.

Local Open Scope string_scope.

Set Implicit Arguments.
Set Warnings "-register-all".

(** ** JSON values *)

Inductive json : Type :=
| JNull
| JBool (b : bool)
| JInt (n : Z)
| JFloat (f : spec_float)
| JStr (s : string)
| JArr (l : list json)
| JObj (d : list (string * json)).

(** ** Python dictionaries with string keys, in insertion order *)

Module Dict.
Section Ops.
Variable V : Type.

Definition t := list (string * V).

  (** [d.get(k)] / [d[k]] *)
Fixpoint get (d : t) (k : string) : option V :=
    match d with
    | [] => None
    | (k', v) :: d' => if String.eqb k k' then Some v else get d' k
    end.

  (** [k in d] *)
Definition mem (d : t) (k : string) : bool :=
    match get d k with Some _ => true | None => false end.

  (** [d.get(k, default)] *)
Definition get_default (d : t) (k : string) (default : V) : V :=
    match get d k with Some v => v | None => default end.

  (** [d[k] = v]: an existing key keeps its position, a new key goes last *)
Fixpoint set (d : t) (k : string) (v : V) : t :=
    match d with
    | [] => [(k, v)]
    | (k', v') :: d' =>
        if String.eqb k k' then (k, v) :: d' else (k', v') :: set d' k v
    end.

  (** [d.update(other)], also [{**d, **other}] *)
Definition update (d other : t) : t :=
    fold_left (fun acc kv => set acc (fst kv) (snd kv)) other d.

Definition keys (d : t) : list string := map fst d.
End Ops.
End Dict.

Definition dict := Dict.t json.
Definition record := Dict.t json.

(** ** Strings *)

(** [s.startswith(p)] *)
Definition startswith (p s : string) : bool := String.prefix p s.

(** [sub in s] for two strings *)
Definition str_contains (sub s : string) : bool :=
  match String.index 0 sub s with Some _ => true | None => false end.

(** The characters of a string: the code points its bytes encode.  Bytes
    that are not the UTF-8 encoding of a character (a Python string never
    has any) decode to U+FFFD. *)
Definition replacement_character : N := 65533.

(** The first byte of a character: the character itself, or the number of
    bytes that follow, the bits read so far and the least value the
    character may have. *)
Definition lead_byte (n : N) : N + (nat * N * N) :=
  if (n <? 128)%N then inl n
  else if (n <? 194)%N then inl replacement_character
  else if (n <? 224)%N then inr (1, (n - 192)%N, 128%N)
  else if (n <? 240)%N then inr (2, (n - 224)%N, 2048%N)
  else if (n <? 245)%N then inr (3, (n - 240)%N, 65536%N)
  else inl replacement_character.

Definition scalar_value (lo v : N) : N :=
  if ((lo <=? v) && (v <=? 1114111) && negb ((55296 <=? v) && (v <=? 57343)))%N
  then v else replacement_character.

Fixpoint utf8_decode_from (pending : option (nat * N * N)) (s : string) : list N :=
  match s with
  | EmptyString =>
      match pending with None => [] | Some _ => [replacement_character] end
  | String b r =>
      let n := N_of_ascii b in
      let fresh :=
        match lead_byte n with
        | inl c => c :: utf8_decode_from None r
        | inr p => utf8_decode_from (Some p) r
        end in
      match pending with
      | None => fresh
      | Some (k, v, lo) =>
          if ((128 <=? n) && (n <? 192))%N then
            let v' := (v * 64 + (n - 128))%N in
            match k with
            | S (S k') => utf8_decode_from (Some (S k', v', lo)) r
            | _ => scalar_value lo v' :: utf8_decode_from None r
            end
          else replacement_character :: fresh
      end
  end.

Definition utf8_decode (s : string) : list N := utf8_decode_from None s.

(** The decimal digits of Unicode 14.0.0, the characters [\d] matches in a
    str pattern and [int] converts: 66 runs of ten, from zero to nine, each
    starting at one of these code points. *)
Definition decimal_blocks : list N :=
  [48; 1632; 1776; 1984; 2406; 2534; 2662; 2790; 2918; 3046; 3174; 3302; 3430;
   3558; 3664; 3792; 3872; 4160; 4240; 6112; 6160; 6470; 6608; 6784; 6800; 6992;
   7088; 7232; 7248; 42528; 43216; 43264; 43472; 43504; 43600; 44016; 65296;
   66720; 68912; 69734; 69872; 69942; 70096; 70384; 70736; 70864; 71248; 71360;
   71472; 71904; 72016; 72784; 73040; 73120; 92768; 92864; 93008; 120782;
   120792; 120802; 120812; 120822; 123200; 123632; 125264; 130032]%N.

(** The value of a decimal digit, [None] for any other character. *)
Definition decimal_value (c : N) : option N :=
  match find (fun b => (b <=? c) && (c <? b + 10))%N decimal_blocks with
  | Some b => Some (c - b)%N
  | None => None
  end.

Definition is_decimal (c : N) : bool :=
  match decimal_value c with Some _ => true | None => false end.

Definition newline : string := String (ascii_of_nat 10) EmptyString.

(** The leading run of decimal digits: its length and what follows. *)
Fixpoint span_decimal (l : list N) : nat * list N :=
  match l with
  | [] => (0, [])
  | c :: l' =>
      if is_decimal c
      then let (n, r) := span_decimal l' in (S n, r)
      else (0, l)
  end.

(** [$]: the end of the string, or a newline that ends it. *)
Definition at_end (l : list N) : bool :=
  match l with
  | [] => true
  | [c] => (c =? 10)%N
  | _ => false
  end.

(** [re.match(r'^AGM\d{4,6}$', s)] succeeds.  [\d{4,6}] is greedy and backs
    off, and nothing but [$] follows it, so the match succeeds exactly when
    the run of decimal digits after "AGM" has 4 to 6 digits and is followed
    by the end of the string; Python's [$] also matches just before a final
    newline. *)
Definition agm_pattern (s : string) : bool :=
  match s with
  | String "A" (String "G" (String "M" rest)) =>
      let (n, r) := span_decimal (utf8_decode rest) in
      ((4 <=? n) && (n <=? 6))%nat && at_end r
  | _ => false
  end.

(** ** [int(x)] *)

Inductive int_result : Type :=
| IntOk (n : Z)
| IntValueError
| IntTypeError
| IntOverflowError.

(** The blanks [int] skips around a number: the ASCII ones of [Py_ISSPACE]
    and the Unicode blanks above U+007F. *)
Definition is_int_space (c : N) : bool :=
  (((9 <=? c) && (c <=? 13)) || (c =? 32) || ((8192 <=? c) && (c <=? 8202))
   || existsb (N.eqb c) [133; 160; 5760; 8232; 8233; 8239; 8287; 12288])%N.

Fixpoint lstrip (l : list N) : list N :=
  match l with
  | c :: l' => if is_int_space c then lstrip l' else l
  | [] => []
  end.

Definition all_space (l : list N) : bool := forallb is_int_space l.

(** Decimal digits with single underscores between digits.  [prev] tells
    whether the previous character was a digit and [count] how many digits
    were read.  Returns the value, the number of digits and the rest, or
    [None] when no well-formed digit group starts here. *)
Fixpoint scan_digits (l : list N) (acc : Z) (count : nat) (prev : bool)
  : option (Z * nat * list N) :=
  match l with
  | [] => if prev then Some (acc, count, []) else None
  | c :: l' =>
      match decimal_value c with
      | Some d => scan_digits l' (10 * acc + Z.of_N d)%Z (S count) true
      | None =>
          if (c =? 95)%N then
            if prev then
              match l' with
              | c' :: _ => if is_decimal c' then scan_digits l' acc count false else None
              | [] => None
              end
            else None
          else if prev then Some (acc, count, l) else None
      end
  end.

(** [sys.get_int_max_str_digits()] as Python starts with it. *)
Definition int_max_str_digits : nat := 4300.

(** [int(s)] for a string, base 10: optional surrounding blanks, an
    optional sign, decimal digits with optional single underscores, and not
    more digits than the limit allows. *)
Definition int_of_str (s : string) : int_result :=
  let l1 := lstrip (utf8_decode s) in
  let '(neg, l2) :=
    match l1 with
    | 45%N :: r => (true, r)
    | 43%N :: r => (false, r)
    | _ => (false, l1)
    end in
  match scan_digits l2 0%Z 0 false with
  | Some (n, count, rest) =>
      if all_space rest && (count <=? int_max_str_digits)%nat
      then IntOk (if neg then - n else n)%Z
      else IntValueError
  | None => IntValueError
  end.

(** [int(f)] for a float: truncation towards zero. *)
Definition int_of_float (f : spec_float) : int_result :=
  match f with
  | S754_zero _ => IntOk 0
  | S754_infinity _ => IntOverflowError
  | S754_nan => IntValueError
  | S754_finite s m e =>
      let q := Z.shiftl (Z.pos m) e in IntOk (if s then - q else q)%Z
  end.

Definition py_int (v : json) : int_result :=
  match v with
  | JInt n => IntOk n
  | JBool b => IntOk (if b then 1 else 0)
  | JFloat f => int_of_float f
  | JStr s => int_of_str s
  | JNull | JArr _ | JObj _ => IntTypeError
  end.

(** ** Exceptions *)

Inductive exn : Type :=
| FileNotFoundError
| JSONDecodeError (msg : string)
| TypeError
| AttributeError
| KeyError
| OverflowError
| LibraryError (msg : string).

Inductive res (A : Type) : Type :=
| Ok (a : A)
| Raise (e : exn).

Arguments Ok {A} a.
Arguments Raise {A} e.

Definition res_bind {A B} (c : res A) (k : A -> res B) : res B :=
  match c with Ok a => k a | Raise e => Raise e end.

Declare Scope res_scope.
Delimit Scope res_scope with res.
Notation "x <- c ;; k" := (res_bind c (fun x => k))
  (at level 61, c at next level, right associativity) : res_scope.

Local Open Scope res_scope.

(** A [for] loop whose body may raise: the first exception ends the loop. *)
Fixpoint mapM {A B} (f : A -> res B) (l : list A) : res (list B) :=
  match l with
  | [] => Ok []
  | x :: l' => y <- f x ;; ys <- mapM f l' ;; Ok (y :: ys)
  end.

Fixpoint foldM {A B} (f : A -> B -> res A) (l : list B) (a : A) : res A :=
  match l with
  | [] => Ok a
  | x :: l' => a' <- f a x ;; foldM f l' a'
  end.

(** ** Operations on a JSON value of unknown shape *)

(** [key in v] *)
Definition py_contains (key : string) (v : json) : res bool :=
  match v with
  | JObj d => Ok (Dict.mem d key)
  | JArr l =>
      Ok (existsb (fun x => match x with JStr s => String.eqb s key | _ => false end) l)
  | JStr s => Ok (str_contains key s)
  | JNull | JBool _ | JInt _ | JFloat _ => Raise TypeError
  end.

(** [v[key]] with a string key *)
Definition py_getitem (v : json) (key : string) : res json :=
  match v with
  | JObj d => match Dict.get d key with Some x => Ok x | None => Raise KeyError end
  | _ => Raise TypeError
  end.

(** [v.items()], [v.keys()] *)
Definition py_items (v : json) : res dict :=
  match v with JObj d => Ok d | _ => Raise AttributeError end.

(** [len(v)] *)
Definition py_len (v : json) : res nat :=
  match v with
  | JObj d => Ok (List.length d)
  | JArr l => Ok (List.length l)
  | JStr s => Ok (List.length (utf8_decode s))
  | JNull | JBool _ | JInt _ | JFloat _ => Raise TypeError
  end.

(** [**v] inside a dict display, and the argument of [record.update(v)] as
    the pipeline uses it.  [update] would also take a sequence of pairs, but
    the join only runs after the extraction has unpacked the same session
    with [**], which needs a mapping (lemma [join_after_extract]). *)
Definition as_mapping (v : json) : res dict :=
  match v with JObj d => Ok d | _ => Raise TypeError end.

(** ** Step 3: one flat record per measurement session *)

(** An entry of [skipped_participants]: the strings
    [f'{pid} (no awm data)'] and [f'{pid} (sessions: {value})']. *)
Inductive skipped_entry : Type :=
| NoAwmData (participant_id : string)
| SessionsValue (participant_id : string) (value : json).

Definition awm_record (participant_id : string) (session : string * json)
  : res record :=
  session_data <- as_mapping (snd session) ;;
  Ok (Dict.update [("participant_id", JStr participant_id);
                   ("session_timestamp", JStr (fst session))]
                  session_data).

Definition extract_step (acc : list record * list skipped_entry)
  (entry : string * json) : res (list record * list skipped_entry) :=
  let (participant_id, participant_data) := entry in
  match participant_data with
  | JObj pd =>
      match Dict.get pd "awm" with
      | Some awm_data =>
          sessions <- py_items awm_data ;;
          rs <- mapM (awm_record participant_id) sessions ;;
          Ok ((fst acc ++ rs)%list, snd acc)
      | None => Ok (fst acc, (snd acc ++ [NoAwmData participant_id])%list)
      end
  | _ => Ok (fst acc, (snd acc ++ [SessionsValue participant_id participant_data])%list)
  end.

(** The loop of step 3: [(awm_records, skipped_participants)]. *)
Definition extract_awm (audcog_data : dict)
  : res (list record * list skipped_entry) :=
  foldM extract_step audcog_data ([], []).

(** ** Steps 4 and 5: the data frame and the identifier filter *)

Record DataFrame : Type := mkDataFrame {
  df_columns : list string;
  df_rows : list record
}.

Definition add_column (cols : list string) (k : string) : list string :=
  if existsb (String.eqb k) cols then cols else (cols ++ [k])%list.

(** [pd.DataFrame(records)]: the columns are the keys in order of first
    appearance; a row without a key reads as NaN, here [None]. *)
Definition dataframe (records : list record) : DataFrame :=
  {| df_columns :=
       fold_left (fun cols r => fold_left add_column (Dict.keys r) cols) records [];
     df_rows := records |}.

Definition cell (r : record) (column : string) : option json := Dict.get r column.

(** [is_agm_participant]: [bool(re.match(pattern, str(participant_id)))].
    [str] of a cell that is not a string (a number, True, False, None, nan, a
    list or a dict) never begins with the letter A, so only strings match. *)
Definition is_agm_participant (participant_id : option json) : bool :=
  match participant_id with
  | Some (JStr s) => agm_pattern s
  | _ => false
  end.

(** [df_clean[df_clean['participant_id'].apply(is_agm_participant)]] *)
Definition filter_agm (df : DataFrame) : DataFrame :=
  {| df_columns := df_columns df;
     df_rows := filter (fun r => is_agm_participant (cell r "participant_id"))
                       (df_rows df) |}.

(** [df.empty]: some axis has length 0 *)
Definition df_empty (df : DataFrame) : bool :=
  match df_rows df, df_columns df with
  | _ :: _, _ :: _ => false
  | _, _ => true
  end.

(** ** Step 6: the age join *)

Record demographics : Type := mkDemographics {
  age : Z;
  sex : json;
  computer_type : json;
  hearing_aids : json;
  headphones : json
}.

Definition unknown : json := JStr "unknown".

Definition snapshot (n : Z) (misc_data : dict) : demographics :=
  {| age := n;
     sex := Dict.get_default misc_data "sex" unknown;
     computer_type := Dict.get_default misc_data "comp" unknown;
     hearing_aids := Dict.get_default misc_data "haids" unknown;
     headphones := Dict.get_default misc_data "headphones" unknown |}.

(** The loop over [participant_data['misc'].items()].  [int] raising
    ValueError or TypeError leaves [age] at None and the loop goes on; any
    other exception leaves the loop and the whole [try] block. *)
Fixpoint scan_misc (entries : dict) : res (option demographics) :=
  match entries with
  | [] => Ok None
  | (_, JObj misc_data) :: rest =>
      match Dict.get misc_data "age" with
      | Some a =>
          match py_int a with
          | IntOk n => Ok (Some (snapshot n misc_data))
          | IntValueError | IntTypeError => scan_misc rest
          | IntOverflowError => Raise OverflowError
          end
      | None => scan_misc rest
      end
  | _ :: rest => scan_misc rest
  end.

Definition fixed_fields (participant_id awm_timestamp : string) (d : demographics)
  : record :=
  [("participant_id", JStr participant_id);
   ("session_timestamp", JStr awm_timestamp);
   ("age", JInt (age d));
   ("sex", sex d);
   ("computer_type", computer_type d);
   ("hearing_aids", hearing_aids d);
   ("headphones", headphones d)].

Definition fixed_columns : list string :=
  ["participant_id"; "session_timestamp"; "age"; "sex"; "computer_type";
   "hearing_aids"; "headphones"].

(** The record of one session: the fixed fields, then [record.update(awm_data)]. *)
Definition joined_record (participant_id awm_timestamp : string) (d : demographics)
  (awm_data : dict) : record :=
  Dict.update (fixed_fields participant_id awm_timestamp d) awm_data.

Definition join_session (participant_id : string) (d : demographics)
  (session : string * json) : res record :=
  awm_data <- as_mapping (snd session) ;;
  Ok (joined_record participant_id (fst session) d awm_data).

(** The body of the loop of step 6 for one participant. *)
Definition join_participant (entry : string * json) : res (list record) :=
  let (participant_id, participant_data) := entry in
  if startswith "AGM" participant_id then
    has_misc <- py_contains "misc" participant_data ;;
    if has_misc then
      misc <- py_getitem participant_data "misc" ;;
      match misc with
      | JObj entries =>
          found <- scan_misc entries ;;
          match found with
          | Some d =>
              has_awm <- py_contains "awm" participant_data ;;
              if has_awm then
                awm <- py_getitem participant_data "awm" ;;
                sessions <- py_items awm ;;
                mapM (join_session participant_id d) sessions
              else Ok []
          | None => Ok []
          end
      | _ => Ok []
      end
    else Ok []
  else Ok [].

(** The loop of step 6: [agm_records_with_age]. *)
Definition join_age (audcog_data : dict) : res (list record) :=
  foldM (fun acc entry => rs <- join_participant entry ;; Ok (acc ++ rs)%list)
        audcog_data [].

(** ** Step 7: the ages that are plotted *)

(** pandas' missing values: None and nan *)
Definition is_na (v : json) : bool :=
  match v with
  | JNull | JFloat S754_nan => true
  | _ => false
  end.

(** [df['age'].dropna()] *)
Definition valid_ages (df : DataFrame) : list json :=
  flat_map (fun r => match cell r "age" with
                     | Some v => if is_na v then [] else [v]
                     | None => []
                     end) (df_rows df).

(** ** The script: what it prints, what it writes *)

Definition filename : string := "audcog_data.json".

(** The lines the script prints, by what they report. *)
Inductive event : Type :=
| LoadSucceeded
| Loaded (top_level_keys : list string)
| FoundParticipants (n : nat)
| FirstIds (first5 : list string)
| SkippedReport (n : nat) (first5 : list skipped_entry)
| Extracted (n : nat) (columns : list string)
| AgmFound (n : nat)
| AgmIds (unique_ids : list string)
| JoinedFound (n : nat)
| Saved
| NoValidAge
| NoAgeData
| NoAgm
| SampleIds
| NoAwm
| NoKey (top_level_keys : list string)
| NotFoundMessage (file : string)
| UnexpectedMessage (e : exn).

(** What a run leaves behind: the printed lines, the export file
    [audcog_agm_with_age.csv] when it was written, and the value of each
    stage's variable once that stage has run to its end. *)
Record world : Type := mkWorld {
  stdout : list event;
  csv_file : option DataFrame;
  skipped_participants : option (list skipped_entry);
  awm_records : option (list record);
  df_agm : option DataFrame;
  agm_records_with_age : option (list record)
}.

Definition initial : world :=
  {| stdout := []; csv_file := None; skipped_participants := None;
     awm_records := None; df_agm := None; agm_records_with_age := None |}.

(** What opening and parsing [audcog_data.json] gives. *)
Inductive source : Type :=
| SrcAbsent
| SrcMalformed (msg : string)
| SrcDocument (data : json).

Definition M (A : Type) : Type := world -> world * res A.

Definition ret {A} (a : A) : M A := fun w => (w, Ok a).

Definition raise {A} (e : exn) : M A := fun w => (w, Raise e).

Definition bind {A B} (c : M A) (k : A -> M B) : M B :=
  fun w => match c w with
           | (w', Ok a) => k a w'
           | (w', Raise e) => (w', Raise e)
           end.

Definition lift {A} (r : res A) : M A := fun w => (w, r).

(** A call into pandas or matplotlib that returns nothing of interest. *)
Definition call (outcome : option exn) : M unit :=
  fun w => (w, match outcome with None => Ok tt | Some e => Raise e end).

Definition print (e : event) : M unit :=
  fun w => (mkWorld (stdout w ++ [e])%list (csv_file w) (skipped_participants w)
                    (awm_records w) (df_agm w) (agm_records_with_age w), Ok tt).

Definition to_csv (df : DataFrame) : M unit :=
  fun w => (mkWorld (stdout w) (Some df) (skipped_participants w)
                    (awm_records w) (df_agm w) (agm_records_with_age w), Ok tt).

Definition set_extracted (rs : list record) (sk : list skipped_entry) : M unit :=
  fun w => (mkWorld (stdout w) (csv_file w) (Some sk) (Some rs)
                    (df_agm w) (agm_records_with_age w), Ok tt).

Definition set_df_agm (df : DataFrame) : M unit :=
  fun w => (mkWorld (stdout w) (csv_file w) (skipped_participants w)
                    (awm_records w) (Some df) (agm_records_with_age w), Ok tt).

Definition set_joined (rs : list record) : M unit :=
  fun w => (mkWorld (stdout w) (csv_file w) (skipped_participants w)
                    (awm_records w) (df_agm w) (Some rs), Ok tt).

Declare Scope script_scope.
Delimit Scope script_scope with script.
Notation "x <- c ;; k" := (bind c (fun x => k))
  (at level 61, c at next level, right associativity) : script_scope.
Notation "c ;; k" := (bind c (fun _ => k))
  (at level 61, right associativity) : script_scope.

(** [Series.unique()] hashes the cells: a list or a dict cannot be hashed. *)
Definition unhashable (c : option json) : bool :=
  match c with Some (JArr _) | Some (JObj _) => true | _ => false end.

Definition column (df : DataFrame) (name : string) : list (option json) :=
  map (fun r => cell r name) (df_rows df).

(** [df_agm['participant_id'].unique()], in order of first appearance: every
    cell of the filtered frame is a string. *)
Definition unique_ids (df : DataFrame) : list string :=
  fold_left add_column
    (flat_map (fun c => match c with Some (JStr s) => [s] | _ => [] end)
              (column df "participant_id"))
    [].

Section Script.

(** Step 7 up to the printed statistics: the two plots, [mean], [median],
    [std], [min], [max] over the valid ages. *)
Variable plot_and_statistics : list json -> option exn.

(** [df.groupby('participant_id')['age'].first().describe()] *)
Variable describe_by_participant : DataFrame -> option exn.

Local Open Scope script_scope.

(** Steps 6 and 7, entered when [df_agm] is not empty. *)
Definition join_and_export (audcog_data : dict) : M unit :=
  joined <- lift (join_age audcog_data) ;;
  set_joined joined ;;
  print (JoinedFound (List.length joined)) ;;
  match joined with
  | [] => print NoAgeData
  | _ :: _ =>
      let df_agm_with_age := dataframe joined in
      match valid_ages df_agm_with_age with
      | [] => print NoValidAge
      | (_ :: _) as ages =>
          call (plot_and_statistics ages) ;;
          to_csv df_agm_with_age ;;
          print Saved ;;
          call (describe_by_participant df_agm_with_age)
      end
  end.

(** Steps 3 to 7 on the value under ['audcog-online']. *)
Definition process (audcog_value : json) : M unit :=
  n <- lift (py_len audcog_value) ;;
  print (FoundParticipants n) ;;
  audcog_data <- lift (py_items audcog_value) ;;
  print (FirstIds (firstn 5 (Dict.keys audcog_data))) ;;
  extracted <- lift (extract_awm audcog_data) ;;
  set_extracted (fst extracted) (snd extracted) ;;
  print (SkippedReport (List.length (snd extracted)) (firstn 5 (snd extracted))) ;;
  match fst extracted with
  | [] => print NoAwm
  | _ :: _ =>
      let df_clean := dataframe (fst extracted) in
      print (Extracted (List.length (df_rows df_clean)) (df_columns df_clean)) ;;
      let agm := filter_agm df_clean in
      set_df_agm agm ;;
      print (AgmFound (List.length (df_rows agm))) ;;
      if df_empty agm then
        print NoAgm ;;
        if existsb unhashable (column df_clean "participant_id")
        then raise TypeError
        else print SampleIds
      else
        print (AgmIds (unique_ids agm)) ;;
        join_and_export audcog_data
  end.

(** The body of the [try] block. *)
Definition body (src : source) : M unit :=
  match src with
  | SrcAbsent => raise FileNotFoundError
  | SrcMalformed msg => raise (JSONDecodeError msg)
  | SrcDocument data =>
      print LoadSucceeded ;;
      top <- lift (py_items data) ;;
      print (Loaded (Dict.keys top)) ;;
      match Dict.get top "audcog-online" with
      | Some audcog_value => process audcog_value
      | None => print (NoKey (Dict.keys top))
      end
  end.

(** The whole script: the [try] block and its two handlers. *)
Definition run (src : source) : world :=
  match body src initial with
  | (w, Ok _) => w
  | (w, Raise FileNotFoundError) => fst (print (NotFoundMessage filename) w)
  | (w, Raise e) => fst (print (UnexpectedMessage e) w)
  end.

End Script.

(** ** push_to_github.py *)

Module Git.

(** What starting an external command gives: the program is not on the
    PATH, or it ran and exited. *)
Inductive proc_result : Type :=
| ToolMissing
| Exited (returncode : Z) (out err : string).

Inductive git_exn : Type :=
| GitNotFound
| CalledProcessError (returncode : Z) (stderr : option string).

(** What reaches the terminal: the script's own lines on its two streams,
    and the output of a child process that inherits them. *)
Inductive line : Type :=
| Stdout (s : string)
| Stderr (s : string)
| ChildOutput (cmd : list string) (out err : string)
| Traceback.

(** [f'{x}'] for the [stderr] attribute of the exception: None when the
    output was not captured (the one call that captures its output never has
    its exception printed). *)
Definition format_stderr (x : option string) : string :=
  match x with None => "None" | Some s => s end.

Definition join_words (ws : list string) : string := String.concat " " ws.

Definition dquote : string := String (ascii_of_nat 34) EmptyString.

Section Machine.
Variable OS : Type.
Variable exec : list string -> OS -> proc_result * OS.

Definition state : Type := OS * list line.

Definition G (A : Type) : Type := state -> state * (git_exn + A).

Definition gret {A} (a : A) : G A := fun st => (st, inr a).

Definition gbind {A B} (c : G A) (k : A -> G B) : G B :=
  fun st => match c st with
            | (st', inr a) => k a st'
            | (st', inl e) => (st', inl e)
            end.

Definition emit (l : line) : G unit :=
  fun st => ((fst st, (snd st ++ [l])%list), inr tt).

(** [try: c except CalledProcessError as e: h e] *)
Definition catch_called {A} (c : G A) (h : Z -> option string -> G A) : G A :=
  fun st => match c st with
            | (st', inl (CalledProcessError rc err)) => h rc err st'
            | other => other
            end.

(** [except FileNotFoundError: h] *)
Definition catch_not_found {A} (c : G A) (h : G A) : G A :=
  fun st => match c st with
            | (st', inl GitNotFound) => h st'
            | other => other
            end.

(** [subprocess.run(cmd, check=True, capture_output=capture)] *)
Definition subprocess_run (capture : bool) (cmd : list string) : G unit :=
  fun st =>
    match exec cmd (fst st) with
    | (ToolMissing, os') => ((os', snd st), inl GitNotFound)
    | (Exited rc out err, os') =>
        let term := if capture then snd st
                    else (snd st ++ [ChildOutput cmd out err])%list in
        ((os', term),
         if (rc =? 0)%Z then inr tt
         else inl (CalledProcessError rc (if capture then Some err else None)))
    end.

Notation "c ;; k" := (gbind c (fun _ => k))
  (at level 61, right associativity).

Definition ensure_remote (remote_url : string) : G unit :=
  catch_called
    (subprocess_run true ["git"; "remote"; "get-url"; "origin"] ;;
     emit (Stdout "Remote 'origin' already exists. Updating its URL.") ;;
     subprocess_run false ["git"; "remote"; "set-url"; "origin"; remote_url])
    (fun _ _ =>
     emit (Stdout "No remote 'origin' found. Adding the remote with the provided URL.") ;;
     subprocess_run false ["git"; "remote"; "add"; "origin"; remote_url]).

Definition stage_commit_push (commit_message : string) : G unit :=
  catch_not_found
    (catch_called
       (emit (Stdout "Staging all changes...") ;;
        subprocess_run false ["git"; "add"; "."] ;;
        emit (Stdout "Changes staged successfully.") ;;
        emit (Stdout ("Committing with message: '" ++ commit_message ++ "'")) ;;
        subprocess_run false ["git"; "commit"; "-m"; commit_message] ;;
        emit (Stdout "Commit successful.") ;;
        emit (Stdout "Pushing to remote repository...") ;;
        subprocess_run false ["git"; "push"; "-u"; "origin"; "main"] ;;
        emit (Stdout "Push successful. All files have been pushed to GitHub."))
       (fun _ err =>
        emit (Stderr ("An error occurred while running a git command: "
                      ++ format_stderr err)) ;;
        emit (Stderr "Please ensure your Git repository is correctly set up and you have the necessary permissions.")))
    (emit (Stderr "Error: The 'git' command was not found. Please ensure Git is installed and accessible from your system's PATH.")).

Definition push_to_github (commit_message remote_url : string) : G unit :=
  ensure_remote remote_url ;;
  stage_commit_push commit_message.

(** The [__main__] block: the final state and the exit status of the
    process.  An exception that leaves [push_to_github] ends the
    interpreter with a traceback on stderr and status 1. *)
Definition main (argv : list string) (os : OS) : state * Z :=
  if (2 <? List.length argv)%nat then
    let commit_msg := join_words (removelast (tl argv)) in
    let remote_url_arg := last argv "" in
    match push_to_github commit_msg remote_url_arg (os, []) with
    | (st, inr _) => (st, 0%Z)
    | (st, inl _) => ((fst st, (snd st ++ [Traceback])%list), 1%Z)
    end
  else
    ((os, [Stdout "Please provide both a commit message and the remote URL.";
           Stdout ("Example: python push_to_github.py " ++ dquote ++ "Initial commit"
                   ++ dquote ++ " https://github.com/your-username/your-repo.git")]),
     1%Z).
End Machine.

End Git.

(** * Vocabulary of the properties *)

(** An entry that supplies the age [n]: a mapping whose ['age'] converts. *)
Definition usable (entry : string * json) (d : demographics) : Prop :=
  exists misc_data a n,
    snd entry = JObj misc_data /\ Dict.get misc_data "age" = Some a /\
    py_int a = IntOk n /\ d = snapshot n misc_data.

(** An entry the scan passes over: not a mapping, no ['age'], or an age on
    which [int] raises ValueError or TypeError. *)
Definition unusable (entry : string * json) : Prop :=
  match snd entry with
  | JObj misc_data =>
      match Dict.get misc_data "age" with
      | Some a => py_int a = IntValueError \/ py_int a = IntTypeError
      | None => True
      end
  | _ => True
  end.

(** The demographic columns of [r] hold the snapshot [d]. *)
Definition carries (r : record) (d : demographics) : Prop :=
  cell r "age" = Some (JInt (age d)) /\
  cell r "sex" = Some (sex d) /\
  cell r "computer_type" = Some (computer_type d) /\
  cell r "hearing_aids" = Some (hearing_aids d) /\
  cell r "headphones" = Some (headphones d).

(** The same, column by column, for the columns the session itself does not
    name. *)
Definition carries_unless_named (fields : dict) (r : record) (d : demographics)
  : Prop :=
  (Dict.mem fields "age" = false -> cell r "age" = Some (JInt (age d))) /\
  (Dict.mem fields "sex" = false -> cell r "sex" = Some (sex d)) /\
  (Dict.mem fields "computer_type" = false ->
   cell r "computer_type" = Some (computer_type d)) /\
  (Dict.mem fields "hearing_aids" = false ->
   cell r "hearing_aids" = Some (hearing_aids d)) /\
  (Dict.mem fields "headphones" = false ->
   cell r "headphones" = Some (headphones d)).

(** [d] is the snapshot of the first usable entry of [entries]. *)
Definition first_usable (entries : dict) (d : demographics) : Prop :=
  exists pre entry post,
    entries = (pre ++ entry :: post)%list /\ Forall unusable pre /\ usable entry d.

(** The record [r] carries, whatever its session holds, the snapshot of the
    first usable demographic entry of some participant. *)
Definition carries_first_usable_entry (audcog_data : dict) (r : record) : Prop :=
  exists pid pd entries d,
    In (pid, JObj pd) audcog_data /\
    Dict.get pd "misc" = Some (JObj entries) /\
    first_usable entries d /\
    carries r d.

(** The record [r] was made for a session of a participant from the first
    usable demographic entry of that participant, and carries its snapshot
    in the columns the session does not name. *)
Definition from_first_usable_entry (audcog_data : dict) (r : record) : Prop :=
  exists pid pd entries d awm ts fields,
    In (pid, JObj pd) audcog_data /\
    Dict.get pd "misc" = Some (JObj entries) /\
    first_usable entries d /\
    Dict.get pd "awm" = Some (JObj awm) /\
    In (ts, JObj fields) awm /\
    r = joined_record pid ts d fields /\
    carries_unless_named fields r d.

(** Whether the scan of the participant's demographic entries finds an age. *)
Definition yields_age (participant_data : json) : bool :=
  match participant_data with
  | JObj pd =>
      match Dict.get pd "misc" with
      | Some (JObj entries) =>
          match scan_misc entries with Ok (Some _) => true | _ => false end
      | _ => false
      end
  | _ => false
  end.

(** The number of measurement sessions of a participant. *)
Definition session_count (participant_data : json) : nat :=
  match participant_data with
  | JObj pd =>
      match Dict.get pd "awm" with
      | Some (JObj awm) => List.length awm
      | _ => 0
      end
  | _ => 0
  end.

(** The sum of the session counts of the participants that [selected]
    picks and that yield an age. *)
Definition qualifying_sessions (selected : string -> bool) (audcog_data : dict)
  : nat :=
  list_sum (map (fun entry =>
                   if selected (fst entry) && yields_age (snd entry)
                   then session_count (snd entry) else 0)
                audcog_data).

(** What the extraction appends to [skipped_participants] for one entry. *)
Definition skipped_of (entry : string * json) : list skipped_entry :=
  match snd entry with
  | JObj pd =>
      match Dict.get pd "awm" with
      | Some _ => []
      | None => [NoAwmData (fst entry)]
      end
  | v => [SessionsValue (fst entry) v]
  end.

(** A participant value that is no container: a count, a flag, null. *)
Definition bare_value (v : json) : bool :=
  match v with
  | JNull | JBool _ | JInt _ | JFloat _ => true
  | JStr _ | JArr _ | JObj _ => false
  end.

(** The documents the properties are evaluated on. *)

Definition document (audcog_data : dict) : source :=
  SrcDocument (JObj [("audcog-online", JObj audcog_data)]).

Definition participant (misc awm : dict) : json :=
  JObj [("awm", JObj awm); ("misc", JObj misc)].

(** The participant of the specification's example: an unparseable age at
    t1, age "45" and sex "f" at t2, two sessions. *)
Definition example_misc : dict :=
  [("t1", JObj [("age", JStr "foo")]);
   ("t2", JObj [("age", JStr "45"); ("sex", JStr "f")])].

Definition example_participant (s1 s2 : string) (f1 f2 : dict) : json :=
  participant example_misc [(s1, JObj f1); (s2, JObj f2)].

Definition example_audcog : dict :=
  [("AGM10234",
    example_participant "s1" "s2" [("score", JInt 7)] [("score", JInt 9)])].

(** AGM10234 matches the pattern; AGM12 only starts with the letters. *)
Definition audcog_prefix_only : dict :=
  [("AGM10234", participant [("t1", JObj [("age", JStr "45")])]
                            [("s1", JObj [("score", JInt 7)])]);
   ("AGM12", participant [("t1", JObj [("age", JInt 30)])]
                         [("s2", JObj [("score", JInt 9)])])].

(** A session that has a measurement called "age". *)
Definition audcog_age_override : dict :=
  [("AGM10234", participant [("t1", JObj [("age", JStr "45")])]
                            [("s1", JObj [("age", JStr "old")])])].

(** A session that has measurements called "sex" and "score". *)
Definition audcog_sex_override : dict :=
  [("AGM10234", participant [("t1", JObj [("age", JStr "45"); ("sex", JStr "f")])]
                            [("s1", JObj [("sex", JStr "m"); ("score", JInt 7)])])].

(** AGM20001 has a session count where the others have a mapping. *)
Definition audcog_bare_count : dict :=
  [("AGM10234", participant [("t1", JObj [("age", JStr "45")])]
                            [("s1", JObj [("score", JInt 7)])]);
   ("AGM20001", JInt 3)].

(** The same two participants, the count under an identifier that does not
    start with AGM. *)
Definition audcog_bare_count_elsewhere : dict :=
  [("AGM10234", participant [("t1", JObj [("age", JStr "45")])]
                            [("s1", JObj [("score", JInt 7)])]);
   ("P20001", JInt 3)].

(** No identifier matches the pattern; AGM12 has an age and a session. *)
Definition audcog_no_match : dict :=
  [("AGM12", participant [("t1", JObj [("age", JInt 30)])]
                         [("s2", JObj [("score", JInt 9)])])].

(** Plotting and statistics that return normally. *)
Definition plot_returns : list json -> option exn := fun _ => None.
Definition describe_returns : DataFrame -> option exn := fun _ => None.

(** The lines the git helper itself writes to standard error. *)
Definition git_stderr_lines : list string :=
  ["An error occurred while running a git command: None";
   "Please ensure your Git repository is correctly set up and you have the necessary permissions.";
   "Error: The 'git' command was not found. Please ensure Git is installed and accessible from your system's PATH."].

(** A system without git, and one where [git add .] fails. *)
Definition exec_no_git : list string -> unit -> Git.proc_result * unit :=
  fun _ os => (Git.ToolMissing, os).

Definition exec_add_fails : list string -> unit -> Git.proc_result * unit :=
  fun cmd os =>
    if list_eq_dec string_dec cmd ["git"; "add"; "."]
    then (Git.Exited 128 "" "fatal: not a git repository", os)
    else (Git.Exited 0 "" "", os).

(** Systems where staging works and [git commit] fails, and where only
    [git push] fails. *)
Definition exec_commit_fails : list string -> unit -> Git.proc_result * unit :=
  fun cmd os =>
    match cmd with
    | ["git"; "commit"; "-m"; _] =>
        (Git.Exited 1 "nothing to commit, working tree clean" "", os)
    | _ => (Git.Exited 0 "" "", os)
    end.

Definition exec_push_fails : list string -> unit -> Git.proc_result * unit :=
  fun cmd os =>
    if list_eq_dec string_dec cmd ["git"; "push"; "-u"; "origin"; "main"]
    then (Git.Exited 128 "" "fatal: Authentication failed", os)
    else (Git.Exited 0 "" "", os).

(** The string with the given bytes, for identifiers and ages written in
    other scripts. *)
Definition of_bytes (l : list nat) : string :=
  fold_right (fun n s => String (ascii_of_nat n) s) EmptyString l.

(** The digits one to four and the number 45 in Arabic-Indic digits, a
    superscript two, a no-break space. *)
Definition arabic_indic_1234 : string := of_bytes [217; 161; 217; 162; 217; 163; 217; 164].
Definition arabic_indic_45 : string := of_bytes [217; 164; 217; 165].
Definition superscript_two : string := of_bytes [194; 178].
Definition no_break_space : string := of_bytes [194; 160].

Definition ones (n : nat) : string := String.concat "" (repeat "1" n).

(** ** Vocabulary of the further properties *)

Definition is_mapping (v : json) : bool :=
  match v with JObj _ => true | _ => false end.

(** The shape the extraction needs of a participant: when it is a mapping
    with an ['awm'], that is a mapping of mappings. *)
Definition sessions_well_shaped (participant_data : json) : bool :=
  match participant_data with
  | JObj pd =>
      match Dict.get pd "awm" with
      | Some (JObj sessions) => forallb (fun s => is_mapping (snd s)) sessions
      | Some _ => false
      | None => true
      end
  | _ => true
  end.

(** The flat records of one participant, one for each session that is a
    mapping. *)
Definition flat_records_of (entry : string * json) : list record :=
  match snd entry with
  | JObj pd =>
      match Dict.get pd "awm" with
      | Some (JObj sessions) =>
          flat_map (fun s => match awm_record (fst entry) s with
                             | Ok r => [r]
                             | Raise _ => []
                             end) sessions
      | _ => []
      end
  | _ => []
  end.

(** A participant without any session: no mapping, no ['awm'], or an empty
    one. *)
Definition no_sessions (participant_data : json) : bool :=
  match participant_data with
  | JObj pd =>
      match Dict.get pd "awm" with
      | None | Some (JObj []) => true
      | Some _ => false
      end
  | _ => true
  end.

(** The shape the join needs of a participant whose identifier starts with
    AGM: a mapping whose demographic scan does not raise, or a string or a
    list in which 'misc' does not occur. *)
Definition joinable (entry : string * json) : bool :=
  if startswith "AGM" (fst entry) then
    match snd entry with
    | JObj pd =>
        match Dict.get pd "misc" with
        | Some (JObj entries) =>
            match scan_misc entries with Ok _ => true | Raise _ => false end
        | _ => true
        end
    | JStr s => negb (str_contains "misc" s)
    | JArr l =>
        negb (existsb (fun x => match x with
                                | JStr s => String.eqb s "misc"
                                | _ => false
                                end) l)
    | JNull | JBool _ | JInt _ | JFloat _ => false
    end
  else true.

Definition demographic_columns : list string :=
  ["age"; "sex"; "computer_type"; "hearing_aids"; "headphones"].

(** The last line of a run. *)
Definition last_line (w : world) : option event :=
  match rev (stdout w) with e :: _ => Some e | [] => None end.

(** What the handlers print for an exception. *)
Definition handler_message (e : exn) : event :=
  match e with
  | FileNotFoundError => NotFoundMessage filename
  | _ => UnexpectedMessage e
  end.

(** Participants for the further properties: one without sessions, one with
    an empty session mapping, one whose sessions are a list. *)
Definition audcog_mixed : dict :=
  [("AGM10234", participant [("t1", JObj [("age", JStr "45")])]
                            [("s1", JObj [("score", JInt 7)]);
                             ("s2", JObj [("score", JInt 9)])]);
   ("P1", JInt 2);
   ("P2", JObj [("misc", JObj [])]);
   ("P3", JObj [("awm", JObj [])])].

Definition audcog_sessions_list : dict :=
  [("P1", JObj [("awm", JArr [JInt 1])])].

Definition audcog_infinite_age : dict :=
  [("AGM10234", participant [("t1", JObj [("age", JFloat (S754_infinity false))])]
                            [("s1", JObj [("score", JInt 7)])])].

(** Systems for the git helper: no remote yet, and a remote whose URL
    cannot be set. *)
Definition exec_no_remote : list string -> unit -> Git.proc_result * unit :=
  fun cmd os =>
    if list_eq_dec string_dec cmd ["git"; "remote"; "get-url"; "origin"]
    then (Git.Exited 2 "" "error: No such remote 'origin'", os)
    else (Git.Exited 0 "" "", os).

Definition exec_set_url_fails : list string -> unit -> Git.proc_result * unit :=
  fun cmd os =>
    match cmd with
    | ["git"; "remote"; "set-url"; "origin"; _] => (Git.Exited 3 "" "", os)
    | _ => (Git.Exited 0 "" "", os)
    end.

Unset Implicit Arguments.

(** * Properties *)

(** ** The conversions on small inputs *)

Example int_of_str_45 : int_of_str "45" = IntOk 45. Proof. reflexivity. Qed.
Example int_of_str_foo : int_of_str "foo" = IntValueError. Proof. reflexivity. Qed.
Example int_of_str_ws : int_of_str " -4_5 " = IntOk (-45). Proof. reflexivity. Qed.
Example int_of_str_dec : int_of_str "45.0" = IntValueError. Proof. reflexivity. Qed.
Example int_of_str_us : int_of_str "4__5" = IntValueError. Proof. reflexivity. Qed.
Example int_of_float_half :
  int_of_float (S754_finite true 91 (-1)) = IntOk (-45). Proof. reflexivity. Qed.
Example agm_pattern_ok : agm_pattern "AGM10234" = true. Proof. reflexivity. Qed.
Example agm_pattern_short : agm_pattern "AGM123" = false. Proof. reflexivity. Qed.
Example agm_pattern_long : agm_pattern "AGM1234567" = false. Proof. reflexivity. Qed.
Example agm_pattern_tail : agm_pattern "AGM1234x" = false. Proof. reflexivity. Qed.
Example agm_pattern_newline : agm_pattern ("AGM1234" ++ newline) = true.
Proof. reflexivity. Qed.
Example agm_pattern_arabic_indic : agm_pattern ("AGM" ++ arabic_indic_1234) = true.
Proof. reflexivity. Qed.
Example agm_pattern_superscript : agm_pattern ("AGM123" ++ superscript_two) = false.
Proof. reflexivity. Qed.
Example agm_pattern_two_newlines : agm_pattern ("AGM1234" ++ newline ++ newline) = false.
Proof. reflexivity. Qed.
Example int_of_str_arabic_indic : int_of_str arabic_indic_45 = IntOk 45.
Proof. reflexivity. Qed.
Example int_of_str_no_break_space :
  int_of_str (no_break_space ++ "45" ++ no_break_space) = IntOk 45.
Proof. reflexivity. Qed.
Example int_of_str_superscript : int_of_str superscript_two = IntValueError.
Proof. reflexivity. Qed.
Example int_of_str_digit_limit :
  int_of_str (ones 4301) = IntValueError /\ int_of_str (ones 4300) <> IntValueError.
Proof. split; [vm_compute; reflexivity|vm_compute; discriminate]. Qed.
Example py_len_code_points : py_len (JStr arabic_indic_45) = Ok 2.
Proof. reflexivity. Qed.
Example py_int_infinity : py_int (JFloat (S754_infinity false)) = IntOverflowError.
Proof. reflexivity. Qed.
Example py_int_null : py_int JNull = IntTypeError. Proof. reflexivity. Qed.

(** ** The identifier pattern *)

Lemma span_decimal_app ds tail :
  forallb is_decimal ds = true ->
  match tail with c :: _ => is_decimal c = false | [] => True end ->
  span_decimal (ds ++ tail) = (List.length ds, tail).
Proof.
  intros Hds Htail. induction ds as [|c ds IH]; simpl in *.
  - destruct tail as [|c t]; [reflexivity|]. simpl. now rewrite Htail.
  - apply andb_true_iff in Hds. destruct Hds as [Hc Hds].
    rewrite Hc, (IH Hds). reflexivity.
Qed.

Lemma span_decimal_split l n r :
  span_decimal l = (n, r) ->
  exists ds, l = (ds ++ r)%list /\ forallb is_decimal ds = true /\ List.length ds = n.
Proof.
  revert n r. induction l as [|c l IH]; simpl; intros n r H.
  - inversion H; subst. now exists [].
  - destruct (is_decimal c) eqn:Hc.
    + destruct (span_decimal l) as [m r'] eqn:E. inversion H; subst.
      destruct (IH _ _ eq_refl) as (ds & -> & Hds & Hlen).
      exists (c :: ds). simpl. now rewrite Hc, Hds, Hlen.
    + inversion H; subst. now exists [].
Qed.

(** X15.  The pattern accepts exactly the strings made of AGM, then 4 to 6
    decimal digits of any script, then the end of the string or one final
    newline. *)
Lemma agm_pattern_spec s :
  agm_pattern s = true <->
  exists rest ds tail,
    s = "AGM" ++ rest /\
    utf8_decode rest = (ds ++ tail)%list /\
    forallb is_decimal ds = true /\
    4 <= List.length ds <= 6 /\ (tail = [] \/ tail = [10%N]).
Proof.
  split.
  - unfold agm_pattern.
    destruct s as [|a s]; [discriminate|].
    destruct (Ascii.eqb_spec a "A") as [->|Ha];
      [|destruct a as [[] [] [] [] [] [] [] []]; try discriminate; now destruct Ha].
    destruct s as [|g s]; [discriminate|].
    destruct (Ascii.eqb_spec g "G") as [->|Hg];
      [|destruct g as [[] [] [] [] [] [] [] []]; try discriminate; now destruct Hg].
    destruct s as [|m s]; [discriminate|].
    destruct (Ascii.eqb_spec m "M") as [->|Hm];
      [|destruct m as [[] [] [] [] [] [] [] []]; try discriminate; now destruct Hm].
    destruct (span_decimal (utf8_decode s)) as [n r] eqn:E.
    destruct (span_decimal_split _ _ _ E) as (ds & Hs & Hds & Hlen).
    intros H. apply andb_true_iff in H. destruct H as [Hn Hr].
    apply andb_true_iff in Hn. destruct Hn as [H4 H6].
    apply Nat.leb_le in H4, H6.
    exists s, ds, r. repeat split; auto; try lia.
    unfold at_end in Hr. destruct r as [|c [|c' r]]; [now left| |discriminate].
    apply N.eqb_eq in Hr. subst. now right.
  - intros (rest & ds & tail & -> & Hdec & Hds & [H4 H6] & Htail).
    unfold agm_pattern. cbn [append]. rewrite Hdec, span_decimal_app; auto.
    + apply andb_true_iff. split.
      * apply andb_true_iff. split; apply Nat.leb_le; lia.
      * destruct Htail as [->| ->]; reflexivity.
    + destruct Htail as [->| ->]; [exact I|reflexivity].
Qed.

(** ** Dictionaries *)

Section DictFacts.
Variable V : Type.
Implicit Types (d other : Dict.t V) (k : string) (v : V).

Lemma get_set_same d k v : Dict.get (Dict.set d k v) k = Some v.
Proof.
    induction d as [|[k' v'] d IH]; simpl.
    - now rewrite String.eqb_refl.
    - destruct (String.eqb k k') eqn:E; simpl.
      + now rewrite String.eqb_refl.
      + now rewrite E.
Qed.

Lemma get_set_other d k k' v :
    k <> k' -> Dict.get (Dict.set d k v) k' = Dict.get d k'.
Proof.
    intros Hne. induction d as [|[k0 v0] d IH]; simpl.
    - destruct (String.eqb_spec k' k); congruence.
    - destruct (String.eqb_spec k k0) as [->|Hk]; simpl.
      + destruct (String.eqb_spec k' k0); congruence.
      + destruct (String.eqb_spec k' k0); auto.
Qed.

Lemma get_none_keys d k : Dict.get d k = None <-> ~ In k (Dict.keys d).
Proof.
    induction d as [|[k' v'] d IH]; simpl.
    - tauto.
    - destruct (String.eqb_spec k k') as [->|Hk].
      + split; [discriminate | tauto].
      + rewrite IH. split; [intros H [E|I]; congruence | tauto].
Qed.

Lemma mem_false_keys d k : Dict.mem d k = false <-> ~ In k (Dict.keys d).
Proof.
    unfold Dict.mem. rewrite <- get_none_keys.
    destruct (Dict.get d k); split; congruence.
Qed.

Lemma get_in d k v : Dict.get d k = Some v -> In (k, v) d.
Proof.
    induction d as [|[k' v'] d IH]; simpl; [discriminate|].
    destruct (String.eqb_spec k k') as [->|Hk].
    - intros [= ->]. now left.
    - intros H. right. auto.
Qed.

Lemma in_get_nodup d k v :
    NoDup (Dict.keys d) -> In (k, v) d -> Dict.get d k = Some v.
Proof.
    induction d as [|[k' v'] d IH]; simpl; [tauto|].
    intros Hnd [E|I].
    - inversion E; subst. now rewrite String.eqb_refl.
    - inversion Hnd as [|? ? Hnot Hnd']; subst.
      destruct (String.eqb_spec k k') as [->|Hk]; auto.
      exfalso. apply Hnot. change (In (fst (k', v)) (map fst d)).
      now apply in_map.
Qed.

  (** A key the update does not mention keeps its value. *)
Lemma get_update_other d other k :
    ~ In k (Dict.keys other) -> Dict.get (Dict.update d other) k = Dict.get d k.
Proof.
    unfold Dict.update. revert d.
    induction other as [|[k' v'] other IH]; simpl; intros d Hk; [reflexivity|].
    rewrite IH by tauto. apply get_set_other. intros ->. tauto.
Qed.

  (** A key the update mentions takes the update's value. *)
Lemma get_update_in d other k v :
    NoDup (Dict.keys other) -> In (k, v) other ->
    Dict.get (Dict.update d other) k = Some v.
Proof.
    unfold Dict.update. revert d.
    induction other as [|[k' v'] other IH]; simpl; intros d Hnd Hin; [tauto|].
    inversion Hnd as [|? ? Hnot Hnd']; subst.
    destruct Hin as [E|I].
    - inversion E; subst.
      change (Dict.get (Dict.update (Dict.set d k v) other) k = Some v).
      rewrite get_update_other by assumption. apply get_set_same.
    - now apply IH.
Qed.

Lemma keys_set_prefix d k v :
    exists extra, Dict.keys (Dict.set d k v) = (Dict.keys d ++ extra)%list.
Proof.
    induction d as [|[k' v'] d [extra IH]]; simpl.
    - now exists [k].
    - destruct (String.eqb_spec k k') as [->|Hk]; simpl.
      + exists []. now rewrite app_nil_r.
      + exists extra. now rewrite IH.
Qed.

  (** An update keeps the keys already there, in place, and appends. *)
Lemma keys_update_prefix d other :
    exists extra, Dict.keys (Dict.update d other) = (Dict.keys d ++ extra)%list.
Proof.
    unfold Dict.update. revert d.
    induction other as [|[k' v'] other IH]; simpl; intros d.
    - exists []. now rewrite app_nil_r.
    - destruct (IH (Dict.set d k' v')) as [e1 H1].
      destruct (keys_set_prefix d k' v') as [e2 H2].
      exists (e2 ++ e1)%list. now rewrite H1, H2, app_assoc.
Qed.
End DictFacts.

(** ** Loops that may raise *)

Lemma mapM_ok {A B} (f : A -> res B) l ys :
  mapM f l = Ok ys -> Forall2 (fun x y => f x = Ok y) l ys.
Proof.
  revert ys. induction l as [|x l IH]; simpl; intros ys H.
  - inversion H. constructor.
  - destruct (f x) eqn:Ef; simpl in H; [|discriminate].
    destruct (mapM f l) eqn:El; simpl in H; [|discriminate].
    inversion H; subst. constructor; auto.
Qed.

Lemma mapM_length {A B} (f : A -> res B) l ys :
  mapM f l = Ok ys -> List.length ys = List.length l.
Proof.
  intros H. apply mapM_ok in H. symmetry. eapply Forall2_length; eauto.
Qed.

Lemma mapM_in {A B} (f : A -> res B) l ys y :
  mapM f l = Ok ys -> In y ys -> exists x, In x l /\ f x = Ok y.
Proof.
  intros H. apply mapM_ok in H. induction H; simpl; [tauto|].
  intros [<-|I]; [eauto|]. destruct (IHForall2 I) as (x0 & ? & ?). eauto.
Qed.

(** ** The scan of the demographic entries *)

Lemma scan_misc_skip entry rest :
  unusable entry -> scan_misc (entry :: rest) = scan_misc rest.
Proof.
  destruct entry as [t v]. unfold unusable. simpl.
  destruct v; try reflexivity.
  destruct (Dict.get d "age"); [|reflexivity].
  intros [-> | ->]; reflexivity.
Qed.

Lemma scan_misc_hit entry rest d :
  usable entry d -> scan_misc (entry :: rest) = Ok (Some d).
Proof.
  destruct entry as [t v]. intros (m & a & n & Hv & Ha & Hn & ->).
  simpl in Hv. subst v. simpl. now rewrite Ha, Hn.
Qed.

(** The scan stops at the first usable entry and reads everything there. *)
Lemma scan_misc_some entries d :
  scan_misc entries = Ok (Some d) <->
  first_usable entries d.
Proof.
  unfold first_usable. split.
  - induction entries as [|[t v] rest IH]; simpl; [discriminate|].
    assert (Hskip : unusable (t, v) -> scan_misc rest = Ok (Some d) ->
             exists pre entry post,
               ((t, v) :: rest = pre ++ entry :: post)%list /\
               Forall unusable pre /\ usable entry d).
    { intros Hu H. destruct (IH H) as (pre & e & post & -> & Hpre & He).
      exists ((t, v) :: pre), e, post. repeat split; auto. }
    destruct v; try (apply Hskip; exact I).
    destruct (Dict.get d0 "age") as [a|] eqn:Ha.
    + destruct (py_int a) eqn:Hn.
      * intros [= <-]. exists [], (t, JObj d0), rest.
        repeat split; auto. exists d0, a, n. auto.
      * apply Hskip. unfold unusable. simpl. rewrite Ha. auto.
      * apply Hskip. unfold unusable. simpl. rewrite Ha. auto.
      * discriminate.
    + apply Hskip. unfold unusable. simpl. now rewrite Ha.
  - intros (pre & e & post & -> & Hpre & He).
    induction Hpre as [|x pre Hx Hpre IH]; simpl app.
    + now apply scan_misc_hit.
    + now rewrite scan_misc_skip.
Qed.

(** The scan finds nothing exactly when every entry is passed over. *)
Lemma scan_misc_none entries :
  scan_misc entries = Ok None <-> Forall unusable entries.
Proof.
  split.
  - induction entries as [|[t v] rest IH]; simpl; [constructor|].
    assert (Hskip : unusable (t, v) -> scan_misc rest = Ok None ->
                    Forall unusable ((t, v) :: rest)) by (constructor; auto).
    destruct v; try (apply Hskip; exact I).
    destruct (Dict.get d "age") as [a|] eqn:Ha.
    + destruct (py_int a) eqn:Hn; try discriminate;
        apply Hskip; unfold unusable; simpl; rewrite Ha; auto.
    + apply Hskip. unfold unusable. simpl. now rewrite Ha.
  - induction 1 as [|x l Hx Hl IH]; [reflexivity|].
    now rewrite scan_misc_skip.
Qed.

(** ** Where a joined record comes from *)

Lemma foldM_append_ok {A B} (f : B -> res (list A)) l acc out :
  foldM (fun acc x => rs <- f x ;; Ok (acc ++ rs)%list) l acc = Ok out ->
  exists parts,
    Forall2 (fun x rs => f x = Ok rs) l parts /\ out = (acc ++ List.concat parts)%list.
Proof.
  revert acc. induction l as [|x l IH]; simpl; intros acc H.
  - inversion H; subst. exists []. split; [constructor|]. simpl. now rewrite app_nil_r.
  - destruct (f x) as [rs|] eqn:Ef; simpl in H; [|discriminate].
    destruct (IH _ H) as (parts & Hparts & ->).
    exists (rs :: parts). split; [constructor; auto|]. simpl. now rewrite app_assoc.
Qed.

Lemma join_age_parts audcog rs :
  join_age audcog = Ok rs ->
  exists parts,
    Forall2 (fun entry part => join_participant entry = Ok part) audcog parts /\
    rs = List.concat parts.
Proof.
  intros H. apply foldM_append_ok in H. exact H.
Qed.

(** What the join does for one participant, by cases on the entry. *)
Lemma join_participant_records pid pdata rs r :
  join_participant (pid, pdata) = Ok rs -> In r rs ->
  exists pd entries d awm ts fields,
    pdata = JObj pd /\ startswith "AGM" pid = true /\
    Dict.get pd "misc" = Some (JObj entries) /\
    scan_misc entries = Ok (Some d) /\
    Dict.get pd "awm" = Some (JObj awm) /\
    In (ts, JObj fields) awm /\
    r = joined_record pid ts d fields.
Proof.
  unfold join_participant.
  destruct (startswith "AGM" pid) eqn:Hp; [|intros [= <-] []].
  destruct pdata as [| | | |s|l|pd]; simpl; try discriminate.
  - destruct (str_contains "misc" s); simpl; [discriminate|intros [= <-] []].
  - destruct (existsb _ l); simpl; [discriminate|intros [= <-] []].
  - unfold Dict.mem.
    destruct (Dict.get pd "misc") as [misc|] eqn:Hm; simpl; [|intros [= <-] []].
    destruct misc as [| | | | | |entries]; try (intros [= <-] []).
    destruct (scan_misc entries) as [[d|]|] eqn:Hs; simpl;
      try discriminate; try (intros [= <-] []).
    destruct (Dict.get pd "awm") as [awmv|] eqn:Ha; simpl; [|intros [= <-] []].
    destruct awmv as [| | | | | |awm]; simpl; try discriminate.
    intros HM Hin.
    destruct (@mapM_in _ _ _ _ _ _ HM Hin) as ([ts v] & Hx & Hf).
    unfold join_session in Hf. simpl in Hf.
    destruct v; simpl in Hf; try discriminate.
    inversion Hf; subst.
    exists pd, entries, d, awm, ts, d0. repeat split; auto.
Qed.

Lemma join_age_records audcog rs r :
  join_age audcog = Ok rs -> In r rs ->
  exists pid pd entries d awm ts fields,
    In (pid, JObj pd) audcog /\ startswith "AGM" pid = true /\
    Dict.get pd "misc" = Some (JObj entries) /\
    scan_misc entries = Ok (Some d) /\
    Dict.get pd "awm" = Some (JObj awm) /\
    In (ts, JObj fields) awm /\
    r = joined_record pid ts d fields.
Proof.
  intros H Hin. destruct (join_age_parts _ _ H) as (parts & Hparts & ->).
  apply in_concat in Hin. destruct Hin as (part & Hpart & Hr).
  clear H. induction Hparts as [|[pid pdata] p audcog parts Hp Hrest IH].
  - destruct Hpart.
  - destruct Hpart as [<-|Hpart].
    + destruct (@join_participant_records pid pdata p r Hp Hr)
        as (pd & entries & d & awm & ts & fields & -> & ? & ? & ? & ? & ? & ?).
      exists pid, pd, entries, d, awm, ts, fields. repeat split; auto. now left.
    + destruct (IH Hpart)
        as (pid' & pd & entries & d & awm & ts & fields & ? & ? & ? & ? & ? & ? & ?).
      exists pid', pd, entries, d, awm, ts, fields. repeat split; auto. now right.
Qed.

(** ** The demographic columns of a joined record *)

Lemma carries_unless_named_joined pid ts d fields :
  carries_unless_named fields (joined_record pid ts d fields) d.
Proof.
  unfold carries_unless_named, cell, joined_record.
  repeat split; intros Hm; apply mem_false_keys in Hm;
    rewrite get_update_other by exact Hm; reflexivity.
Qed.

Lemma join_participant_no_age pid pd entries :
  Dict.get pd "misc" = Some (JObj entries) ->
  Forall unusable entries ->
  join_participant (pid, JObj pd) = Ok [].
Proof.
  intros Hm Hu. apply scan_misc_none in Hu.
  unfold join_participant. destruct (startswith "AGM" pid); [|reflexivity].
  simpl. unfold Dict.mem. rewrite Hm. simpl. rewrite Hu. reflexivity.
Qed.

(** C3, as amended.  Every joined record was made for one session of a
    participant from the first demographic entry, in iteration order, whose
    age converts to a whole number: the entries before it are passed over (not
    a mapping, no age, or an age on which the conversion raises ValueError or
    TypeError), sex, computer type, hearing aids and headphones are read from
    that same entry with the default "unknown", and the record holds these
    values in every demographic column that the session's own measurement
    fields do not name.  A participant none of whose entries is usable
    contributes no record.  The participant of the example yields exactly two
    records, each with age 45 and sex "f" unless the session has a measurement
    of that name. *)
Theorem joined_demographics :
  (forall audcog_data rs r,
      join_age audcog_data = Ok rs -> In r rs ->
      from_first_usable_entry audcog_data r) /\
  (forall pid pd entries,
      Dict.get pd "misc" = Some (JObj entries) ->
      Forall unusable entries ->
      join_participant (pid, JObj pd) = Ok []) /\
  (forall s1 s2 f1 f2,
      let d := snapshot 45 [("age", JStr "45"); ("sex", JStr "f")] in
      let r1 := joined_record "AGM10234" s1 d f1 in
      let r2 := joined_record "AGM10234" s2 d f2 in
      join_age [("AGM10234", example_participant s1 s2 f1 f2)] = Ok [r1; r2] /\
      age d = 45%Z /\ sex d = JStr "f" /\
      carries_unless_named f1 r1 d /\ carries_unless_named f2 r2 d).
Proof.
  split; [|split].
  - intros audcog_data rs r H Hin.
    destruct (join_age_records _ _ _ H Hin)
      as (pid & pd & entries & d & awm & ts & fields
          & Hp & _ & Hm & Hs & Ha & Hts & ->).
    exists pid, pd, entries, d, awm, ts, fields.
    apply scan_misc_some in Hs.
    repeat (split; [assumption || reflexivity|]).
    apply carries_unless_named_joined.
  - exact join_participant_no_age.
  - intros s1 s2 f1 f2 d r1 r2.
    split; [reflexivity|]. split; [reflexivity|]. split; [reflexivity|].
    split; apply carries_unless_named_joined.
Qed.

Lemma joined_demographics_witness :
  join_age example_audcog
  = Ok [joined_record "AGM10234" "s1"
          (snapshot 45 [("age", JStr "45"); ("sex", JStr "f")]) [("score", JInt 7)];
        joined_record "AGM10234" "s2"
          (snapshot 45 [("age", JStr "45"); ("sex", JStr "f")]) [("score", JInt 9)]] /\
  from_first_usable_entry example_audcog
    (joined_record "AGM10234" "s1"
       (snapshot 45 [("age", JStr "45"); ("sex", JStr "f")]) [("score", JInt 7)]).
Proof.
  split; [reflexivity|].
  eapply (proj1 joined_demographics example_audcog).
  - reflexivity.
  - left. reflexivity.
Defined.

(** The claim of C3 as it stands fails where a session has a measurement
    called "age": the joined record then holds the measurement, not the age
    of the demographic entry. *)
Lemma age_override_counterexample :
  ~ (forall rs r,
        join_age audcog_age_override = Ok rs -> In r rs ->
        carries_first_usable_entry audcog_age_override r).
Proof.
  intros H.
  destruct (H _ _ eq_refl (or_introl eq_refl)) as (pid & pd & entries & d & _ & _ & _ & Hc).
  destruct Hc as [Hage _]. vm_compute in Hage. discriminate.
Qed.

(** ** The extraction *)

Lemma extract_step_skipped acc entry out :
  extract_step acc entry = Ok out ->
  snd out = (snd acc ++ skipped_of entry)%list.
Proof.
  destruct entry as [pid v]. unfold extract_step, skipped_of. simpl.
  destruct v; try (intros [= <-]; reflexivity).
  destruct (Dict.get d "awm") as [awm|]; [|intros [= <-]; reflexivity].
  destruct (py_items awm) as [sessions|]; simpl; [|discriminate].
  destruct (mapM (awm_record pid) sessions); simpl; [|discriminate].
  intros [= <-]. simpl. now rewrite app_nil_r.
Qed.

(** The skipped list holds, in order, one entry for each participant that
    is no mapping or has no ['awm']. *)
Lemma extract_awm_skipped audcog records skipped :
  extract_awm audcog = Ok (records, skipped) ->
  skipped = flat_map skipped_of audcog.
Proof.
  unfold extract_awm.
  enough (G : forall acc out, foldM extract_step audcog acc = Ok out ->
                              snd out = (snd acc ++ flat_map skipped_of audcog)%list).
  { intros H. apply G in H. exact H. }
  induction audcog as [|entry audcog IH]; simpl; intros acc out H.
  - inversion H. now rewrite app_nil_r.
  - destruct (extract_step acc entry) as [acc'|] eqn:E; simpl in H; [|discriminate].
    rewrite (IH _ _ H), (extract_step_skipped _ _ _ E). now rewrite app_assoc.
Qed.

Lemma extract_awm_step audcog records skipped entry :
  extract_awm audcog = Ok (records, skipped) -> In entry audcog ->
  exists acc out, extract_step acc entry = Ok out.
Proof.
  unfold extract_awm. generalize (@nil record, @nil skipped_entry).
  generalize (records, skipped). clear records skipped.
  induction audcog as [|e audcog IH]; simpl; intros out acc H Hin; [tauto|].
  destruct (extract_step acc e) as [acc'|] eqn:E; simpl in H; [|discriminate].
  destruct Hin as [<-|Hin]; eauto.
Qed.

(** Once the extraction has returned, every session the join can meet is a
    mapping. *)
Lemma join_after_extract audcog records skipped pid pd awm :
  extract_awm audcog = Ok (records, skipped) ->
  In (pid, JObj pd) audcog ->
  Dict.get pd "awm" = Some awm ->
  exists sessions,
    awm = JObj sessions /\
    forall ts v, In (ts, v) sessions -> exists fields, v = JObj fields.
Proof.
  intros H Hin Ha.
  destruct (extract_awm_step _ _ _ _ H Hin) as (acc & out & E).
  unfold extract_step in E. rewrite Ha in E.
  destruct awm; simpl in E; try discriminate.
  exists d. split; [reflexivity|]. intros ts v Hv.
  destruct (mapM (awm_record pid) d) as [rs|] eqn:EM; simpl in E; [|discriminate].
  apply mapM_ok in EM. clear E Ha.
  induction EM as [|x y l l' Hx _ IH]; [destruct Hv|].
  destruct Hv as [->|Hv]; [|auto].
  unfold awm_record in Hx. simpl in Hx. destruct v; simpl in Hx; try discriminate.
  eauto.
Qed.

(** A participant that is no mapping never stops the extraction and is
    reported as skipped. *)
Lemma extract_awm_reports_non_mapping audcog records skipped pid v :
  extract_awm audcog = Ok (records, skipped) ->
  In (pid, v) audcog ->
  (forall pd, v <> JObj pd) ->
  In (SessionsValue pid v) skipped.
Proof.
  intros H Hin Hv. rewrite (extract_awm_skipped _ _ _ H).
  apply in_flat_map. exists (pid, v). split; [exact Hin|].
  unfold skipped_of. simpl. destruct v; try (now left).
  now destruct (Hv d).
Qed.

(** ** The filter *)

Lemma filter_agm_rows df r :
  In r (df_rows (filter_agm df)) <->
  In r (df_rows df) /\ is_agm_participant (cell r "participant_id") = true.
Proof. unfold filter_agm. simpl. apply filter_In. Qed.

Lemma df_empty_false df :
  df_empty df = false -> exists r, In r (df_rows df).
Proof.
  unfold df_empty. destruct (df_rows df) as [|r rows]; [discriminate|].
  intros _. exists r. now left.
Qed.

Lemma df_empty_no_rows df : df_rows df = [] -> df_empty df = true.
Proof. unfold df_empty. now intros ->. Qed.

(** ** The join and the participants it takes *)

(** The join raises on an identifier that starts with AGM and whose value is
    a bare count. *)
Lemma join_participant_bare_value pid v :
  startswith "AGM" pid = true -> bare_value v = true ->
  join_participant (pid, v) = Raise TypeError.
Proof.
  intros Hp Hv. unfold join_participant. rewrite Hp.
  destruct v; simpl in Hv; try discriminate; reflexivity.
Qed.

Lemma join_age_bare_value audcog pid v :
  In (pid, v) audcog ->
  startswith "AGM" pid = true -> bare_value v = true ->
  forall rs, join_age audcog <> Ok rs.
Proof.
  intros Hin Hp Hv rs H.
  destruct (join_age_parts _ _ H) as (parts & Hparts & _). clear H.
  induction Hparts as [|e part audcog parts He _ IH]; [destruct Hin|].
  destruct Hin as [->|Hin]; [|auto].
  rewrite (join_participant_bare_value _ _ Hp Hv) in He. discriminate.
Qed.

Lemma join_participant_length entry rs :
  join_participant entry = Ok rs ->
  List.length rs
  = if startswith "AGM" (fst entry) && yields_age (snd entry)
    then session_count (snd entry) else 0.
Proof.
  destruct entry as [pid pdata]. unfold join_participant, yields_age, session_count.
  simpl fst. simpl snd.
  destruct (startswith "AGM" pid); [|intros [= <-]; reflexivity].
  destruct pdata as [| | | |s|l|pd]; simpl; try discriminate.
  - destruct (str_contains "misc" s); simpl; [discriminate|intros [= <-]; reflexivity].
  - destruct (existsb _ l); simpl; [discriminate|intros [= <-]; reflexivity].
  - unfold Dict.mem.
    destruct (Dict.get pd "misc") as [misc|]; simpl; [|intros [= <-]; reflexivity].
    destruct misc as [| | | | | |entries]; try (intros [= <-]; reflexivity).
    destruct (scan_misc entries) as [[d|]|]; simpl;
      try discriminate; try (intros [= <-]; reflexivity).
    destruct (Dict.get pd "awm") as [awmv|]; simpl; [|intros [= <-]; reflexivity].
    destruct awmv as [| | | | | |awm]; simpl; try discriminate.
    apply mapM_length.
Qed.

(** What the code does: the number of joined records is the sum of the
    session counts of the participants whose identifier starts with AGM and
    that yield an age. *)
Lemma join_age_length audcog rs :
  join_age audcog = Ok rs ->
  List.length rs = qualifying_sessions (startswith "AGM") audcog.
Proof.
  intros H. destruct (join_age_parts _ _ H) as (parts & Hparts & ->). clear H.
  unfold qualifying_sessions.
  induction Hparts as [|e part audcog parts He _ IH]; [reflexivity|].
  simpl. rewrite length_app, IH, (join_participant_length _ _ He). reflexivity.
Qed.

(** ** The whole run *)

Ltac script_unfold :=
  cbv beta iota zeta delta
    [run body process join_and_export bind lift ret raise call print to_csv
     set_extracted set_df_agm set_joined initial fst snd
     stdout csv_file skipped_participants awm_records df_agm
     agm_records_with_age].

(** Split on the innermost scrutinee of the goal. *)
Ltac case_step :=
  match goal with
  | |- context [match ?x with _ => _ end] =>
      lazymatch x with
      | context [match _ with _ => _ end] => fail
      | _ => destruct x eqn:?
      end
  end.

Ltac run_cases := script_unfold; repeat (case_step; script_unfold; try discriminate).

Lemma py_items_ok v d : py_items v = Ok d -> v = JObj d.
Proof. destruct v; simpl; try discriminate. now intros [= ->]. Qed.

Section RunFacts.
Variable plot : list json -> option exn.
Variable describe : DataFrame -> option exn.

(** The join has run to its end only on a document whose extraction
    returned and left a row for the filter to keep. *)
Lemma run_joined src rs :
  agm_records_with_age (run plot describe src) = Some rs ->
  exists top audcog records skipped,
    src = SrcDocument (JObj top) /\
    Dict.get top "audcog-online" = Some (JObj audcog) /\
    extract_awm audcog = Ok (records, skipped) /\
    awm_records (run plot describe src) = Some records /\
    df_agm (run plot describe src) = Some (filter_agm (dataframe records)) /\
    df_empty (filter_agm (dataframe records)) = false /\
    join_age audcog = Ok rs.
Proof.
  run_cases; intros [= <-];
    repeat match goal with
           | H : py_items _ = Ok _ |- _ => apply py_items_ok in H
           end; subst;
    eexists _, _, _, _; repeat split; eauto.
Qed.

(** The export file holds the frame of the joined records. *)
Lemma run_csv src df :
  csv_file (run plot describe src) = Some df ->
  exists rs,
    agm_records_with_age (run plot describe src) = Some rs /\
    df = dataframe rs /\
    plot (valid_ages df) = None.
Proof.
  run_cases; intros [= <-];
    (eexists; split; [reflexivity|split; [reflexivity|congruence]]).
Qed.

(** The filtered frame is the filter of the frame of the flat records. *)
Lemma run_df_agm src df :
  df_agm (run plot describe src) = Some df ->
  exists records,
    awm_records (run plot describe src) = Some records /\
    df = filter_agm (dataframe records).
Proof.
  run_cases; intros [= <-]; (eexists; split; reflexivity).
Qed.

(** Every row of the filtered frame has an identifier that matches the
    pattern, and only joined records enter the export. *)
Lemma run_filtered_rows_match src df r :
  df_agm (run plot describe src) = Some df ->
  In r (df_rows df) ->
  is_agm_participant (cell r "participant_id") = true.
Proof.
  intros H Hin. destruct (run_df_agm _ _ H) as (records & _ & ->).
  now apply filter_agm_rows in Hin.
Qed.

(** When the filter keeps no row the run stops there. *)
Lemma run_no_match src records :
  awm_records (run plot describe src) = Some records ->
  (forall r, In r records ->
             is_agm_participant (cell r "participant_id") = false) ->
  let w := run plot describe src in
  agm_records_with_age w = None /\ csv_file w = None /\
  ~ In Saved (stdout w) /\ (forall n, ~ In (JoinedFound n) (stdout w)) /\
  (records <> [] ->
   In NoAgm (stdout w) /\
   (last (stdout w) NoAwm = SampleIds \/
    last (stdout w) NoAwm = UnexpectedMessage TypeError)).
Proof.
  intros H Hnone w.
  assert (Hempty : df_empty (filter_agm (dataframe records)) = true).
  { apply df_empty_no_rows. simpl.
    destruct (filter _ records) as [|r rows] eqn:E; [reflexivity|].
    assert (Hr : In r (filter (fun r => is_agm_participant (cell r "participant_id"))
                               records)) by (rewrite E; now left).
    apply filter_In in Hr. destruct Hr as [Hin Hm].
    rewrite (Hnone _ Hin) in Hm. discriminate. }
  subst w. revert H Hempty. run_cases; intros [= <-] Hempty;
    try congruence;
    (split; [reflexivity|]); (split; [reflexivity|]);
    (split; [simpl; intuition discriminate|]);
    (split; [simpl; intros n; intuition discriminate|]);
    simpl; intuition congruence.
Qed.

End RunFacts.

(** ** The claims about the pipeline *)

Ltac run_eval := cbv; repeat (case_step; cbv; try discriminate).

(** C1, evaluated where it fails.  AGM12 does not match the pattern and the
    filtered frame holds no row of it, but the join, which tests only the
    first three letters, makes a record for it, and the record is exported. *)
Theorem prefix_only_participant_is_joined :
  agm_pattern "AGM12" = false /\
  (forall plot describe,
      let w := run plot describe (document audcog_prefix_only) in
      (exists df, df_agm w = Some df /\
                  column df "participant_id" = [Some (JStr "AGM10234")]) /\
      (exists rs, agm_records_with_age w = Some rs /\
                  map (fun r => cell r "participant_id") rs
                  = [Some (JStr "AGM10234"); Some (JStr "AGM12")])) /\
  (exists df,
      csv_file (run plot_returns describe_returns (document audcog_prefix_only))
      = Some df /\
      column df "participant_id" = [Some (JStr "AGM10234"); Some (JStr "AGM12")]).
Proof.
  split; [reflexivity|]. split.
  - intros plot describe w. subst w.
    split; run_eval; (eexists; split; reflexivity).
  - eexists. split; [vm_compute; reflexivity|reflexivity].
Qed.

(** C2, evaluated where it fails.  On the same document the join yields two
    records, one for each participant whose identifier starts with AGM, while
    the participants the pattern selects have one session between them. *)
Theorem joined_count_exceeds_pattern_selected :
  exists rs,
    join_age audcog_prefix_only = Ok rs /\
    (forall plot describe,
        agm_records_with_age (run plot describe (document audcog_prefix_only))
        = Some rs) /\
    List.length rs = 2 /\
    qualifying_sessions agm_pattern audcog_prefix_only = 1 /\
    qualifying_sessions (startswith "AGM") audcog_prefix_only = 2.
Proof.
  eexists. split; [reflexivity|]. split; [|repeat split].
  intros plot describe. run_eval; reflexivity.
Qed.

(** C4, evaluated where it fails.  AGM20001 has a bare count.  The
    extraction reports it as skipped, but the join meets it again, raises
    TypeError, and the run ends in the handler of unexpected errors with no
    joined records and no export file.  The same count under an identifier
    that does not start with AGM is passed over and the export is written. *)
Theorem bare_count_under_agm_aborts :
  (forall plot describe,
      let w := run plot describe (document audcog_bare_count) in
      skipped_participants w = Some [SessionsValue "AGM20001" (JInt 3)] /\
      last (stdout w) NoAwm = UnexpectedMessage TypeError /\
      agm_records_with_age w = None /\
      csv_file w = None) /\
  join_age audcog_bare_count = Raise TypeError /\
  (let w := run plot_returns describe_returns (document audcog_bare_count_elsewhere) in
   skipped_participants w = Some [SessionsValue "P20001" (JInt 3)] /\
   last (stdout w) NoAwm = Saved /\
   csv_file w <> None).
Proof.
  split; [|split].
  - intros plot describe w. subst w. repeat split.
  - reflexivity.
  - cbv. repeat split. discriminate.
Qed.

(** C5.  When the input file is absent the run prints the not-found message
    and nothing else; when its content does not parse the run prints the
    message of the handler of unexpected errors with the parser's text; in
    both cases no stage has run and no export file is written. *)
Theorem load_failure_no_export plot describe :
  run plot describe SrcAbsent
  = {| stdout := [NotFoundMessage "audcog_data.json"];
       csv_file := None; skipped_participants := None; awm_records := None;
       df_agm := None; agm_records_with_age := None |} /\
  (forall msg,
      run plot describe (SrcMalformed msg)
      = {| stdout := [UnexpectedMessage (JSONDecodeError msg)];
           csv_file := None; skipped_participants := None; awm_records := None;
           df_agm := None; agm_records_with_age := None |}).
Proof. split; [reflexivity | intros msg; reflexivity]. Qed.

(** C10.  The join has run to its end, or the export file exists, only if
    some flat record has an identifier that matches the pattern.  When no
    flat record matches, there are no joined records, no export file, and
    neither the count of joined records nor the saved line is printed: the
    run ends in the branch that reports that no AGM participant was found.
    This is so for the document whose only participant AGM12 has an age and
    a session, for which the join itself would return a record. *)
Theorem join_gated_by_pattern plot describe :
  (forall src,
      let w := run plot describe src in
      agm_records_with_age w <> None \/ csv_file w <> None ->
      exists records r,
        awm_records w = Some records /\ In r records /\
        is_agm_participant (cell r "participant_id") = true) /\
  (forall src records,
      let w := run plot describe src in
      awm_records w = Some records ->
      (forall r, In r records ->
                 is_agm_participant (cell r "participant_id") = false) ->
      agm_records_with_age w = None /\ csv_file w = None /\
      ~ In Saved (stdout w) /\ (forall n, ~ In (JoinedFound n) (stdout w)) /\
      (records <> [] ->
       In NoAgm (stdout w) /\
       (last (stdout w) NoAwm = SampleIds \/
        last (stdout w) NoAwm = UnexpectedMessage TypeError))) /\
  (let w := run plot describe (document audcog_no_match) in
   startswith "AGM" "AGM12" = true /\
   (exists r, join_age audcog_no_match = Ok [r]) /\
   agm_records_with_age w = None /\ csv_file w = None).
Proof.
  split; [|split].
  - intros src w Hsome.
    assert (Hj : exists rs, agm_records_with_age w = Some rs).
    { destruct Hsome as [Hj|Hc].
      - destruct (agm_records_with_age w) as [rs|]; [eauto|congruence].
      - destruct (csv_file w) as [df|] eqn:E; [|congruence].
        destruct (run_csv plot describe _ _ E) as (rs & Hrs & _). eauto. }
    destruct Hj as [rs Hj].
    destruct (run_joined plot describe _ _ Hj)
      as (top & audcog & records & skipped & _ & _ & _ & Hrec & _ & Hne & _).
    destruct (df_empty_false _ Hne) as [r Hr].
    apply filter_agm_rows in Hr. destruct Hr as [Hin Hm].
    exists records, r. auto.
  - intros src records w Hrec Hnone.
    exact (run_no_match plot describe src records Hrec Hnone).
  - intros w. subst w. repeat split. eexists. reflexivity.
Qed.

Lemma join_gated_by_pattern_witness :
  awm_records (run plot_returns describe_returns (document audcog_no_match))
  = Some [[("participant_id", JStr "AGM12"); ("session_timestamp", JStr "s2");
           ("score", JInt 9)]] /\
  agm_records_with_age (run plot_returns describe_returns (document audcog_no_match))
  = None /\
  csv_file (run plot_returns describe_returns (document audcog_no_match)) = None.
Proof.
  assert (Hrec : awm_records
                   (run plot_returns describe_returns (document audcog_no_match))
                 = Some [[("participant_id", JStr "AGM12");
                          ("session_timestamp", JStr "s2"); ("score", JInt 9)]])
    by reflexivity.
  split; [exact Hrec|].
  destruct (proj1 (proj2 (join_gated_by_pattern plot_returns describe_returns))
              (document audcog_no_match) _ Hrec) as (H1 & H2 & _).
  - intros r [<-|[]]. reflexivity.
  - split; assumption.
Defined.

(** ** Measurement fields against the fixed columns *)

Lemma join_age_contains audcog rs pid pd entries d awm ts fields :
  join_age audcog = Ok rs ->
  In (pid, JObj pd) audcog ->
  startswith "AGM" pid = true ->
  Dict.get pd "misc" = Some (JObj entries) ->
  scan_misc entries = Ok (Some d) ->
  Dict.get pd "awm" = Some (JObj awm) ->
  In (ts, JObj fields) awm ->
  In (joined_record pid ts d fields) rs.
Proof.
  intros H Hin Hp Hm Hs Ha Hts.
  destruct (join_age_parts _ _ H) as (parts & Hparts & ->). clear H.
  apply in_concat.
  induction Hparts as [|e p audcog parts He _ IH]; [destruct Hin|].
  destruct Hin as [->|Hin].
  - exists p. split; [now left|].
    unfold join_participant in He. rewrite Hp in He.
    simpl in He. unfold Dict.mem in He. rewrite Hm in He. simpl in He.
    rewrite Hs in He. simpl in He. rewrite Ha in He. simpl in He.
    apply mapM_ok in He. clear - He Hts.
    induction He as [|x y l l' Hx _ IH']; [destruct Hts|].
    destruct Hts as [->|Hts]; [|right; auto].
    left. unfold join_session in Hx. simpl in Hx. congruence.
  - destruct (IH Hin) as (part & Hp' & Hr). exists part. split; [now right|exact Hr].
Qed.

(** C9.  In a run whose join has returned, take a session of a participant
    whose identifier starts with AGM and whose demographic scan found an
    age, and a measurement field of that session named like one of the seven
    fixed columns.  The record the join made of the session is in the joined
    output, and in the rows of the export file when one was written; the
    session raised nothing; the column stays where the fixed fields put it,
    and reading it in the record gives the measurement, not the fixed
    value. *)
Theorem measurement_overwrites_fixed_field_in_output
  plot describe top audcog rs pid pd entries d awm ts fields k v :
  Dict.get top "audcog-online" = Some (JObj audcog) ->
  agm_records_with_age (run plot describe (SrcDocument (JObj top))) = Some rs ->
  In (pid, JObj pd) audcog ->
  startswith "AGM" pid = true ->
  Dict.get pd "misc" = Some (JObj entries) ->
  scan_misc entries = Ok (Some d) ->
  Dict.get pd "awm" = Some (JObj awm) ->
  In (ts, JObj fields) awm ->
  NoDup (Dict.keys fields) ->
  In k fixed_columns ->
  In (k, v) fields ->
  exists r,
    In r rs /\
    join_session pid d (ts, JObj fields) = Ok r /\
    r = Dict.update (fixed_fields pid ts d) fields /\
    Dict.mem (fixed_fields pid ts d) k = true /\
    cell r k = Some v /\
    (exists extra, Dict.keys r = (fixed_columns ++ extra)%list) /\
    (forall df, csv_file (run plot describe (SrcDocument (JObj top))) = Some df ->
                In r (df_rows df)).
Proof.
  intros Hget Hrs Hin Hp Hm Hs Ha Hts Hnd Hk Hkv.
  destruct (run_joined plot describe _ _ Hrs)
    as (top' & audcog' & records & skipped & Hsrc & Hget' & _ & _ & _ & _ & Hj).
  inversion Hsrc; subst top'. rewrite Hget in Hget'. inversion Hget'; subst audcog'.
  pose proof (join_age_contains _ _ _ _ _ _ _ _ _ Hj Hin Hp Hm Hs Ha Hts) as Hr.
  exists (joined_record pid ts d fields).
  split; [exact Hr|].
  split; [reflexivity|].
  split; [reflexivity|].
  split. { simpl in Hk. decompose [or] Hk; subst; try reflexivity. contradiction. }
  split. { unfold cell, joined_record. now apply get_update_in. }
  split. { unfold joined_record. apply keys_update_prefix. }
  intros df Hdf. destruct (run_csv plot describe _ _ Hdf) as (rs' & Hrs' & -> & _).
  rewrite Hrs in Hrs'. inversion Hrs'; subst rs'. exact Hr.
Qed.

Lemma measurement_overwrites_fixed_field_in_output_witness :
  exists r df,
    agm_records_with_age (run plot_returns describe_returns (document audcog_sex_override))
    = Some [r] /\
    csv_file (run plot_returns describe_returns (document audcog_sex_override))
    = Some df /\
    In r (df_rows df) /\
    cell r "sex" = Some (JStr "m") /\
    cell (fixed_fields "AGM10234" "s1"
            (snapshot 45 [("age", JStr "45"); ("sex", JStr "f")])) "sex"
    = Some (JStr "f").
Proof.
  assert (Hrs : agm_records_with_age
                  (run plot_returns describe_returns (document audcog_sex_override))
                = Some [joined_record "AGM10234" "s1"
                          (snapshot 45 [("age", JStr "45"); ("sex", JStr "f")])
                          [("sex", JStr "m"); ("score", JInt 7)]])
    by (vm_compute; reflexivity).
  destruct (csv_file (run plot_returns describe_returns (document audcog_sex_override)))
    as [df|] eqn:Hdf; [|vm_compute in Hdf; discriminate Hdf].
  assert (Hnd : NoDup (Dict.keys [("sex", JStr "m"); ("score", JInt 7)])).
  { repeat constructor; simpl; intuition discriminate. }
  assert (Hk : In "sex" fixed_columns) by (simpl; tauto).
  unfold document in Hrs, Hdf.
  destruct (measurement_overwrites_fixed_field_in_output
              plot_returns describe_returns
              [("audcog-online", JObj audcog_sex_override)] audcog_sex_override _
              "AGM10234"
              [("awm", JObj [("s1", JObj [("sex", JStr "m"); ("score", JInt 7)])]);
               ("misc", JObj [("t1", JObj [("age", JStr "45"); ("sex", JStr "f")])])]
              [("t1", JObj [("age", JStr "45"); ("sex", JStr "f")])]
              (snapshot 45 [("age", JStr "45"); ("sex", JStr "f")])
              [("s1", JObj [("sex", JStr "m"); ("score", JInt 7)])]
              "s1" [("sex", JStr "m"); ("score", JInt 7)] "sex" (JStr "m")
              eq_refl Hrs (or_introl eq_refl) eq_refl eq_refl eq_refl eq_refl
              (or_introl eq_refl) Hnd Hk (or_introl eq_refl))
    as (r & Hin & _ & Hr & _ & Hcell & _ & Hcsv).
  exists r, df. unfold document.
  split. { rewrite Hrs. subst r. reflexivity. }
  split; [reflexivity|].
  split; [exact (Hcsv df Hdf)|].
  split; [exact Hcell|reflexivity].
Defined.

(** ** The git helper *)

Lemma subprocess_run_tool_missing {OS} (exec : list string -> OS -> Git.proc_result * OS)
  capture cmd st :
  fst (exec cmd (fst st)) = Git.ToolMissing ->
  exists st', Git.subprocess_run exec capture cmd st = (st', inl Git.GitNotFound).
Proof.
  unfold Git.subprocess_run. destruct (exec cmd (fst st)) as [r os'].
  simpl. intros ->. eauto.
Qed.

(** A command that is run without capturing its output fails with an
    exception whose [stderr] is None. *)
Lemma subprocess_run_uncaptured {OS} (exec : list string -> OS -> Git.proc_result * OS)
  cmd st st' rc err :
  Git.subprocess_run exec false cmd st = (st', inl (Git.CalledProcessError rc err)) ->
  err = None.
Proof.
  unfold Git.subprocess_run. destruct (exec cmd (fst st)) as [[|rc' out e] os'].
  - discriminate.
  - destruct (rc' =? 0)%Z; [discriminate|]. now intros [= _ _ <-].
Qed.

(** C6.  The script exits with status 1 when fewer than two arguments
    follow the script name, and when no git program can be started. *)
Theorem exit_status_without_arguments_or_git
  {OS} (exec : list string -> OS -> Git.proc_result * OS) argv os :
  List.length argv <= 2 \/ (forall cmd o, fst (exec cmd o) = Git.ToolMissing) ->
  snd (Git.main exec argv os) = 1%Z.
Proof.
  intros H. unfold Git.main.
  destruct (Nat.ltb_spec 2 (List.length argv)) as [Hlong|Hshort]; [|reflexivity].
  destruct H as [Hlen|Hgit]; [lia|].
  unfold Git.push_to_github, Git.ensure_remote, Git.gbind, Git.catch_called.
  destruct (subprocess_run_tool_missing exec true
              ["git"; "remote"; "get-url"; "origin"] (os, []) (Hgit _ _))
    as [st' ->].
  reflexivity.
Qed.

Lemma exit_status_without_arguments_or_git_witness :
  snd (Git.main exec_add_fails ["push_to_github.py"; "update"] tt) = 1%Z /\
  snd (Git.main exec_no_git
         ["push_to_github.py"; "update"; "https://example.org/repo.git"] tt) = 1%Z.
Proof.
  split.
  - apply (exit_status_without_arguments_or_git exec_add_fails
             ["push_to_github.py"; "update"] tt).
    left. simpl. lia.
  - apply (exit_status_without_arguments_or_git exec_no_git
             ["push_to_github.py"; "update"; "https://example.org/repo.git"] tt).
    right. intros cmd o. reflexivity.
Defined.

(** Whatever the commands do, the script writes only three lines of its own
    to standard error, none of which holds the output of a command. *)
Lemma script_stderr_is_fixed {OS} (exec : list string -> OS -> Git.proc_result * OS)
  argv os l :
  In (Git.Stderr l) (snd (fst (Git.main exec argv os))) ->
  In l git_stderr_lines.
Proof.
  unfold git_stderr_lines, Git.main, Git.push_to_github, Git.ensure_remote,
    Git.stage_commit_push, Git.gbind, Git.catch_called, Git.catch_not_found,
    Git.subprocess_run, Git.emit.
  cbn [fst snd app].
  repeat (case_step; cbn [fst snd app Git.format_stderr] in *; try discriminate).
  all: repeat match goal with
              | H : (_, _) = (_, _) |- _ => inversion H; clear H; subst
              end.
  all: cbn [fst snd app Git.format_stderr In]; intuition (try discriminate).
  all: try match goal with
           | H : Git.Stderr _ = Git.Stderr _ |- _ =>
               inversion H; clear H; subst; cbn; auto
           end.
Qed.

(** C7.  When the remote has been set up and staging, committing or pushing
    exits with a status other than 0, everything that command wrote, to its
    standard output and to its standard error, is on the terminal as the
    command wrote it: the three commands are run on the streams of the
    script.  It is followed by the two lines of the script's handler, the
    first of which ends in None because the output was not captured; no
    later command is run and the script exits with status 0. *)
Theorem failed_command_output_reaches_the_terminal
  {OS} (exec : list string -> OS -> Git.proc_result * OS) argv os st :
  2 < List.length argv ->
  Git.ensure_remote exec (last argv "") (os, []) = (st, inr tt) ->
  let message := Git.join_words (removelast (tl argv)) in
  let report :=
    [Git.Stderr "An error occurred while running a git command: None";
     Git.Stderr "Please ensure your Git repository is correctly set up and you have the necessary permissions."] in
  (forall rc out err os1,
      exec ["git"; "add"; "."] (fst st) = (Git.Exited rc out err, os1) ->
      rc <> 0%Z ->
      Git.main exec argv os
      = ((os1,
          (snd st
           ++ [Git.Stdout "Staging all changes...";
               Git.ChildOutput ["git"; "add"; "."] out err]
           ++ report)%list), 0%Z)) /\
  (forall out1 err1 os1 rc out err os2,
      exec ["git"; "add"; "."] (fst st) = (Git.Exited 0 out1 err1, os1) ->
      exec ["git"; "commit"; "-m"; message] os1 = (Git.Exited rc out err, os2) ->
      rc <> 0%Z ->
      Git.main exec argv os
      = ((os2,
          (snd st
           ++ [Git.Stdout "Staging all changes...";
               Git.ChildOutput ["git"; "add"; "."] out1 err1;
               Git.Stdout "Changes staged successfully.";
               Git.Stdout ("Committing with message: '" ++ message ++ "'");
               Git.ChildOutput ["git"; "commit"; "-m"; message] out err]
           ++ report)%list), 0%Z)) /\
  (forall out1 err1 os1 out2 err2 os2 rc out err os3,
      exec ["git"; "add"; "."] (fst st) = (Git.Exited 0 out1 err1, os1) ->
      exec ["git"; "commit"; "-m"; message] os1 = (Git.Exited 0 out2 err2, os2) ->
      exec ["git"; "push"; "-u"; "origin"; "main"] os2 = (Git.Exited rc out err, os3) ->
      rc <> 0%Z ->
      Git.main exec argv os
      = ((os3,
          (snd st
           ++ [Git.Stdout "Staging all changes...";
               Git.ChildOutput ["git"; "add"; "."] out1 err1;
               Git.Stdout "Changes staged successfully.";
               Git.Stdout ("Committing with message: '" ++ message ++ "'");
               Git.ChildOutput ["git"; "commit"; "-m"; message] out2 err2;
               Git.Stdout "Commit successful.";
               Git.Stdout "Pushing to remote repository...";
               Git.ChildOutput ["git"; "push"; "-u"; "origin"; "main"] out err]
           ++ report)%list), 0%Z)).
Proof.
  intros Hlen Hens message report.
  apply Nat.ltb_lt in Hlen.
  assert (Hmain : forall r,
             Git.stage_commit_push exec message st = r ->
             Git.main exec argv os
             = match r with
               | (st', inr _) => (st', 0%Z)
               | (st', inl _) => ((fst st', (snd st' ++ [Git.Traceback])%list), 1%Z)
               end).
  { intros r <-. unfold Git.main. rewrite Hlen.
    unfold Git.push_to_github, Git.gbind. rewrite Hens. reflexivity. }
  destruct st as [os0 term]. cbn [fst snd] in *.
  repeat split.
  - intros rc out err os1 H1 Hrc. apply Z.eqb_neq in Hrc.
    erewrite Hmain; [|reflexivity].
    unfold Git.stage_commit_push, Git.catch_not_found, Git.catch_called, Git.gbind,
      Git.emit, Git.subprocess_run. cbn [fst snd].
    rewrite H1, Hrc. cbn [fst snd Git.format_stderr append].
    rewrite <- !app_assoc. reflexivity.
  - intros out1 err1 os1 rc out err os2 H1 H2 Hrc. apply Z.eqb_neq in Hrc.
    erewrite Hmain; [|reflexivity].
    unfold Git.stage_commit_push, Git.catch_not_found, Git.catch_called, Git.gbind,
      Git.emit, Git.subprocess_run. cbn [fst snd].
    rewrite H1. cbn [fst snd Z.eqb]. rewrite H2, Hrc.
    cbn [fst snd Git.format_stderr append].
    rewrite <- !app_assoc. reflexivity.
  - intros out1 err1 os1 out2 err2 os2 rc out err os3 H1 H2 H3 Hrc.
    apply Z.eqb_neq in Hrc.
    erewrite Hmain; [|reflexivity].
    unfold Git.stage_commit_push, Git.catch_not_found, Git.catch_called, Git.gbind,
      Git.emit, Git.subprocess_run. cbn [fst snd].
    rewrite H1. cbn [fst snd Z.eqb]. rewrite H2. cbn [fst snd Z.eqb]. rewrite H3, Hrc.
    cbn [fst snd Git.format_stderr append].
    rewrite <- !app_assoc. reflexivity.
Qed.

Lemma failed_command_output_reaches_the_terminal_witness :
  In (Git.ChildOutput ["git"; "add"; "."] "" "fatal: not a git repository")
     (snd (fst (Git.main exec_add_fails
                  ["push_to_github.py"; "update"; "data"; "https://example.org/repo.git"]
                  tt))) /\
  In (Git.ChildOutput ["git"; "commit"; "-m"; "update data"]
        "nothing to commit, working tree clean" "")
     (snd (fst (Git.main exec_commit_fails
                  ["push_to_github.py"; "update"; "data"; "https://example.org/repo.git"]
                  tt))) /\
  In (Git.ChildOutput ["git"; "push"; "-u"; "origin"; "main"]
        "" "fatal: Authentication failed")
     (snd (fst (Git.main exec_push_fails
                  ["push_to_github.py"; "update"; "data"; "https://example.org/repo.git"]
                  tt))).
Proof.
  assert (Hlen : 2 < List.length
                       ["push_to_github.py"; "update"; "data";
                        "https://example.org/repo.git"]) by (simpl; lia).
  assert (Hrc128 : 128%Z <> 0%Z) by discriminate.
  assert (Hrc1 : 1%Z <> 0%Z) by discriminate.
  split; [|split].
  - rewrite (proj1 (failed_command_output_reaches_the_terminal exec_add_fails
                      ["push_to_github.py"; "update"; "data";
                       "https://example.org/repo.git"] tt _ Hlen eq_refl)
               128%Z "" "fatal: not a git repository" tt eq_refl Hrc128).
    vm_compute. tauto.
  - rewrite (proj1 (proj2 (failed_command_output_reaches_the_terminal exec_commit_fails
                             ["push_to_github.py"; "update"; "data";
                              "https://example.org/repo.git"] tt _ Hlen eq_refl))
               "" "" tt 1%Z "nothing to commit, working tree clean" "" tt
               eq_refl eq_refl Hrc1).
    vm_compute. tauto.
  - rewrite (proj2 (proj2 (failed_command_output_reaches_the_terminal exec_push_fails
                             ["push_to_github.py"; "update"; "data";
                              "https://example.org/repo.git"] tt _ Hlen eq_refl))
               "" "" tt "" "" tt 128%Z "" "fatal: Authentication failed" tt
               eq_refl eq_refl eq_refl Hrc128).
    vm_compute. tauto.
Defined.

(** * Further properties of the code *)

(** ** The extraction loop *)

Lemma mapM_flat {A B} (f : A -> res B) l ys :
  mapM f l = Ok ys ->
  ys = flat_map (fun x => match f x with Ok y => [y] | Raise _ => [] end) l.
Proof.
  revert ys. induction l as [|x l IH]; simpl; intros ys H.
  - now inversion H.
  - destruct (f x) as [y|]; simpl in H; [|discriminate].
    destruct (mapM f l) as [ys'|]; simpl in H; [|discriminate].
    inversion H; subst. simpl. now rewrite <- (IH _ eq_refl).
Qed.

Lemma mapM_succeeds {A B} (f : A -> res B) l :
  (exists ys, mapM f l = Ok ys) <->
  forallb (fun x => match f x with Ok _ => true | Raise _ => false end) l = true.
Proof.
  induction l as [|x l IH]; simpl.
  - split; eauto.
  - destruct (f x) as [y|]; simpl.
    + rewrite <- IH. split.
      * intros [ys H]. destruct (mapM f l); [eauto|discriminate].
      * intros [ys ->]. simpl. eauto.
    + split; [intros [ys H]|]; discriminate.
Qed.

Lemma forallb_pointwise {A} (f g : A -> bool) l :
  (forall x, f x = g x) -> forallb f l = forallb g l.
Proof.
  intros H. induction l as [|x l IH]; simpl; [reflexivity|].
  now rewrite H, IH.
Qed.

Lemma awm_record_succeeds pid s :
  match awm_record pid s with Ok _ => true | Raise _ => false end
  = is_mapping (snd s).
Proof. unfold awm_record. destruct (snd s); reflexivity. Qed.

Lemma extract_step_succeeds acc entry :
  (exists out, extract_step acc entry = Ok out) <->
  sessions_well_shaped (snd entry) = true.
Proof.
  destruct entry as [pid v]. unfold extract_step, sessions_well_shaped. simpl.
  destruct v as [| | | | | |pd]; try solve [split; eauto].
  destruct (Dict.get pd "awm") as [awm|]; [|solve [split; eauto]].
  destruct awm as [| | | | | |sessions]; simpl;
    try solve [split; [intros [out H]|]; discriminate].
  rewrite (forallb_pointwise _ _ sessions
             (fun s => eq_sym (awm_record_succeeds pid s))).
  rewrite <- mapM_succeeds. split.
  - intros [out H]. destruct (mapM (awm_record pid) sessions); [eauto|discriminate].
  - intros [rs ->]. simpl. eauto.
Qed.

Lemma extract_step_out acc entry out :
  extract_step acc entry = Ok out ->
  fst out = (fst acc ++ flat_records_of entry)%list /\
  snd out = (snd acc ++ skipped_of entry)%list.
Proof.
  intros H. split; [|exact (extract_step_skipped _ _ _ H)].
  destruct entry as [pid v]. unfold extract_step in H. unfold flat_records_of. simpl.
  destruct v as [| | | | | |pd];
    try (inversion H; subst; simpl; now rewrite app_nil_r).
  destruct (Dict.get pd "awm") as [awm|];
    [|inversion H; subst; simpl; now rewrite app_nil_r].
  destruct awm as [| | | | | |sessions]; simpl in H; try discriminate.
  destruct (mapM (awm_record pid) sessions) as [rs|] eqn:E; simpl in H; [|discriminate].
  inversion H; subst. simpl. now rewrite (mapM_flat _ _ _ E).
Qed.

Lemma extract_fold_out audcog acc out :
  foldM extract_step audcog acc = Ok out ->
  fst out = (fst acc ++ flat_map flat_records_of audcog)%list /\
  snd out = (snd acc ++ flat_map skipped_of audcog)%list.
Proof.
  revert acc. induction audcog as [|entry audcog IH]; simpl; intros acc H.
  - inversion H. now rewrite !app_nil_r.
  - destruct (extract_step acc entry) as [acc'|] eqn:E; simpl in H; [|discriminate].
    destruct (IH _ H) as [H1 H2]. destruct (extract_step_out _ _ _ E) as [E1 E2].
    rewrite H1, H2, E1, E2, <- !app_assoc. auto.
Qed.

Lemma extract_fold_succeeds audcog acc :
  (exists out, foldM extract_step audcog acc = Ok out) <->
  forallb (fun entry => sessions_well_shaped (snd entry)) audcog = true.
Proof.
  revert acc. induction audcog as [|entry audcog IH]; simpl; intros acc.
  - split; eauto.
  - rewrite andb_true_iff, <- (extract_step_succeeds acc entry). split.
    + intros [out H].
      destruct (extract_step acc entry) as [acc'|] eqn:E; simpl in H; [|discriminate].
      split; [eauto|]. apply (IH acc'). eauto.
    + intros [[acc' ->] Hrest]. simpl. now apply IH.
Qed.

Lemma flat_records_of_length entry :
  sessions_well_shaped (snd entry) = true ->
  List.length (flat_records_of entry) = session_count (snd entry).
Proof.
  destruct entry as [pid v].
  unfold sessions_well_shaped, flat_records_of, session_count. simpl.
  destruct v as [| | | | | |pd]; try reflexivity.
  destruct (Dict.get pd "awm") as [awm|]; [|reflexivity].
  destruct awm as [| | | | | |sessions]; try reflexivity.
  induction sessions as [|s sessions IH]; simpl; [reflexivity|].
  intros H. apply andb_true_iff in H. destruct H as [Hs Hrest].
  rewrite length_app, (IH Hrest).
  pose proof (awm_record_succeeds pid s) as Hr. rewrite Hs in Hr.
  destruct (awm_record pid s); [reflexivity|discriminate].
Qed.

(** X1.  The extraction returns exactly on the documents in which every
    participant that is a mapping with an ['awm'] has a mapping of mappings
    there; a participant of any other type never stops it. *)
Theorem extraction_returns_iff_sessions_well_shaped audcog_data :
  (exists out, extract_awm audcog_data = Ok out) <->
  forallb (fun entry => sessions_well_shaped (snd entry)) audcog_data = true.
Proof. apply extract_fold_succeeds. Qed.

Lemma extraction_returns_iff_sessions_well_shaped_witness :
  (exists out, extract_awm audcog_mixed = Ok out) /\
  ~ (exists out, extract_awm audcog_sessions_list = Ok out).
Proof.
  split.
  - apply (proj2 (extraction_returns_iff_sessions_well_shaped audcog_mixed)).
    reflexivity.
  - intros H.
    apply (proj1 (extraction_returns_iff_sessions_well_shaped audcog_sessions_list)) in H.
    discriminate H.
Defined.

(** X2.  When the extraction returns, the flat records are the sessions of
    the participants in document order, the skipped list holds in order the
    participants that are no mapping or have no ['awm'], and there are as
    many flat records as sessions.  A participant with an empty ['awm'] is in
    neither list. *)
Theorem extraction_output audcog_data records skipped :
  extract_awm audcog_data = Ok (records, skipped) ->
  records = flat_map flat_records_of audcog_data /\
  skipped = flat_map skipped_of audcog_data /\
  List.length records
  = list_sum (map (fun entry => session_count (snd entry)) audcog_data) /\
  (forall pid pd, Dict.get pd "awm" = Some (JObj []) ->
                  flat_records_of (pid, JObj pd) = [] /\
                  skipped_of (pid, JObj pd) = []).
Proof.
  intros H.
  assert (Hshape : forallb (fun entry => sessions_well_shaped (snd entry))
                           audcog_data = true).
  { apply extract_fold_succeeds with (acc := ([], [])). eauto. }
  destruct (extract_fold_out _ _ _ H) as [H1 H2]. simpl in H1, H2.
  subst records skipped. split; [reflexivity|]. split; [reflexivity|]. split.
  2:{ intros pid pd Hpd. unfold flat_records_of, skipped_of. simpl.
      rewrite Hpd. split; reflexivity. }
  clear H. induction audcog_data as [|entry l IH]; simpl; [reflexivity|].
  simpl in Hshape. apply andb_true_iff in Hshape. destruct Hshape as [He Hl].
  now rewrite length_app, (IH Hl), (flat_records_of_length _ He).
Qed.

Lemma extraction_output_witness :
  extract_awm audcog_mixed
  = Ok ([[("participant_id", JStr "AGM10234"); ("session_timestamp", JStr "s1");
          ("score", JInt 7)];
         [("participant_id", JStr "AGM10234"); ("session_timestamp", JStr "s2");
          ("score", JInt 9)]],
        [SessionsValue "P1" (JInt 2); NoAwmData "P2"]) /\
  List.length [[("participant_id", JStr "AGM10234"); ("session_timestamp", JStr "s1");
                ("score", JInt 7)];
               [("participant_id", JStr "AGM10234"); ("session_timestamp", JStr "s2");
                ("score", JInt 9)]]
  = list_sum (map (fun entry => session_count (snd entry)) audcog_mixed).
Proof.
  split; [reflexivity|].
  exact (proj1 (proj2 (proj2 (extraction_output audcog_mixed _ _ eq_refl)))).
Defined.

(** ** The join loop *)

Lemma agm_pattern_startswith s :
  agm_pattern s = true -> startswith "AGM" s = true.
Proof.
  unfold agm_pattern, startswith.
  destruct s as [|a s]; [discriminate|].
  destruct (Ascii.eqb_spec a "A") as [->|Ha];
    [|destruct a as [[] [] [] [] [] [] [] []]; try discriminate; now destruct Ha].
  destruct s as [|g s]; [discriminate|].
  destruct (Ascii.eqb_spec g "G") as [->|Hg];
    [|destruct g as [[] [] [] [] [] [] [] []]; try discriminate; now destruct Hg].
  destruct s as [|m s]; [discriminate|].
  destruct (Ascii.eqb_spec m "M") as [->|Hm];
    [|destruct m as [[] [] [] [] [] [] [] []]; try discriminate; now destruct Hm].
  intros _. simpl. now destruct s.
Qed.

Lemma join_age_part audcog rs entry :
  join_age audcog = Ok rs -> In entry audcog ->
  exists part, join_participant entry = Ok part /\ incl part rs.
Proof.
  intros H Hin. destruct (join_age_parts _ _ H) as (parts & Hparts & ->). clear H.
  induction Hparts as [|e p audcog parts He _ IH]; [destruct Hin|].
  destruct Hin as [->|Hin].
  - exists p. split; [exact He|]. simpl. apply incl_appl, incl_refl.
  - destruct (IH Hin) as (part & Hp & Hincl).
    exists part. split; [exact Hp|]. simpl. now apply incl_appr.
Qed.

Lemma mapM_ok_in {A B} (f : A -> res B) l ys x y :
  mapM f l = Ok ys -> In x l -> f x = Ok y -> In y ys.
Proof.
  intros H. apply mapM_ok in H. induction H as [|x0 y0 l ys Hx _ IH]; simpl; [tauto|].
  intros [->|Hin] Hf; [left; congruence|right; auto].
Qed.

(** X3.  No participant the filter selects is lost by the join: an
    identifier that matches the pattern also starts with AGM, and when the
    join returns, every session of such a participant whose demographic scan
    finds an age has its joined record in the output. *)
Theorem pattern_selected_sessions_are_joined audcog_data rs pid pd entries d awm ts fields :
  join_age audcog_data = Ok rs ->
  In (pid, JObj pd) audcog_data ->
  agm_pattern pid = true ->
  Dict.get pd "misc" = Some (JObj entries) ->
  scan_misc entries = Ok (Some d) ->
  Dict.get pd "awm" = Some (JObj awm) ->
  In (ts, JObj fields) awm ->
  startswith "AGM" pid = true /\ In (joined_record pid ts d fields) rs.
Proof.
  intros H Hin Hpat Hm Hs Ha Hts.
  pose proof (agm_pattern_startswith _ Hpat) as Hp. split; [exact Hp|].
  destruct (join_age_part _ _ _ H Hin) as (part & Hpart & Hincl).
  apply Hincl. unfold join_participant in Hpart. rewrite Hp in Hpart.
  simpl in Hpart. unfold Dict.mem in Hpart. rewrite Hm in Hpart. simpl in Hpart.
  rewrite Hs in Hpart. simpl in Hpart. rewrite Ha in Hpart. simpl in Hpart.
  apply (mapM_ok_in _ _ _ _ _ Hpart Hts). reflexivity.
Qed.

Lemma pattern_selected_sessions_are_joined_witness :
  In (joined_record "AGM10234" "s2"
        (snapshot 45 [("age", JStr "45"); ("sex", JStr "f")]) [("score", JInt 9)])
     [joined_record "AGM10234" "s1"
        (snapshot 45 [("age", JStr "45"); ("sex", JStr "f")]) [("score", JInt 7)];
      joined_record "AGM10234" "s2"
        (snapshot 45 [("age", JStr "45"); ("sex", JStr "f")]) [("score", JInt 9)]].
Proof.
  refine (proj2 (pattern_selected_sessions_are_joined example_audcog _ "AGM10234"
                   [("awm", JObj [("s1", JObj [("score", JInt 7)]);
                                  ("s2", JObj [("score", JInt 9)])]);
                    ("misc", JObj example_misc)]
                   example_misc _
                   [("s1", JObj [("score", JInt 7)]); ("s2", JObj [("score", JInt 9)])]
                   "s2" [("score", JInt 9)] eq_refl _ eq_refl eq_refl eq_refl eq_refl _)).
  - left. reflexivity.
  - right. left. reflexivity.
Defined.

Lemma scan_misc_overflow pre t m post sign :
  Forall unusable pre ->
  Dict.get m "age" = Some (JFloat (S754_infinity sign)) ->
  scan_misc (pre ++ (t, JObj m) :: post)%list = Raise OverflowError.
Proof.
  intros Hpre Hage. induction Hpre as [|x pre Hx _ IH]; simpl app.
  - simpl. now rewrite Hage.
  - now rewrite scan_misc_skip.
Qed.

(** X4.  An age that is an infinite float is not passed over like an
    unparseable one: the conversion raises OverflowError, which the scan
    does not catch, so the join of any document in which the scan of a
    participant starting with AGM reaches such an entry never returns. *)
Theorem infinite_age_stops_the_join audcog_data pid pd entries pre t m post sign :
  In (pid, JObj pd) audcog_data ->
  startswith "AGM" pid = true ->
  Dict.get pd "misc" = Some (JObj entries) ->
  entries = (pre ++ (t, JObj m) :: post)%list ->
  Forall unusable pre ->
  Dict.get m "age" = Some (JFloat (S754_infinity sign)) ->
  scan_misc entries = Raise OverflowError /\
  join_participant (pid, JObj pd) = Raise OverflowError /\
  forall rs, join_age audcog_data <> Ok rs.
Proof.
  intros Hin Hp Hm -> Hpre Hage.
  pose proof (scan_misc_overflow pre t m post sign Hpre Hage) as Hs.
  assert (Hj : join_participant (pid, JObj pd) = Raise OverflowError).
  { unfold join_participant. rewrite Hp. simpl. unfold Dict.mem.
    rewrite Hm. simpl. now rewrite Hs. }
  split; [exact Hs|]. split; [exact Hj|].
  intros rs H. destruct (join_age_part _ _ _ H Hin) as (part & Hpart & _).
  congruence.
Qed.

Lemma infinite_age_stops_the_join_witness :
  join_age audcog_infinite_age = Raise OverflowError /\
  forall rs, join_age audcog_infinite_age <> Ok rs.
Proof.
  split; [reflexivity|].
  refine (proj2 (proj2 (infinite_age_stops_the_join audcog_infinite_age "AGM10234"
            [("awm", JObj [("s1", JObj [("score", JInt 7)])]);
             ("misc", JObj [("t1", JObj [("age", JFloat (S754_infinity false))])])]
            [("t1", JObj [("age", JFloat (S754_infinity false))])]
            [] "t1" [("age", JFloat (S754_infinity false))] [] false
            _ eq_refl eq_refl eq_refl (Forall_nil _) eq_refl))).
  left. reflexivity.
Defined.

Lemma join_participant_succeeds entry :
  sessions_well_shaped (snd entry) = true ->
  (exists rs, join_participant entry = Ok rs) <-> joinable entry = true.
Proof.
  destruct entry as [pid v]. unfold sessions_well_shaped, join_participant, joinable.
  simpl fst. simpl snd.
  destruct (startswith "AGM" pid); [|split; eauto].
  destruct v as [| | | |s|l|pd]; simpl;
    try solve [intros _; split; [intros [rs H]|]; discriminate].
  - intros _. destruct (str_contains "misc" s); simpl;
      split; eauto; [intros [rs H]|]; discriminate.
  - intros _. destruct (existsb _ l); simpl;
      split; eauto; [intros [rs H]|]; discriminate.
  - unfold Dict.mem.
    destruct (Dict.get pd "misc") as [misc|]; simpl; [|split; eauto].
    destruct misc as [| | | | | |entries]; try solve [split; eauto].
    destruct (scan_misc entries) as [[d|]|]; simpl;
      try solve [split; eauto];
      try solve [intros _; split; [intros [rs H]|]; discriminate].
    destruct (Dict.get pd "awm") as [awm|]; simpl; [|split; eauto].
    destruct awm as [| | | | | |sessions]; simpl; try discriminate.
    intros Hshape. split; [reflexivity|]. intros _.
    apply mapM_succeeds.
    etransitivity; [|exact Hshape]. apply forallb_pointwise.
    intros x. unfold join_session. destruct (snd x); reflexivity.
Qed.

Lemma join_fold_succeeds (audcog : dict) acc :
  forallb (fun entry => sessions_well_shaped (snd entry)) audcog = true ->
  (exists rs,
      foldM (fun acc entry => res_bind (join_participant entry)
                                (fun rs => Ok (acc ++ rs)%list)) audcog acc = Ok rs) <->
  forallb joinable audcog = true.
Proof.
  revert acc. induction audcog as [|entry audcog IH]; simpl; intros acc Hshape.
  - split; eauto.
  - apply andb_true_iff in Hshape. destruct Hshape as [He Hrest].
    rewrite andb_true_iff, <- (join_participant_succeeds entry He). split.
    + intros [rs H].
      destruct (join_participant entry) as [part|]; simpl in H; [|discriminate].
      split; [eauto|]. apply (IH (acc ++ part)%list Hrest). eauto.
    + intros [[part ->] Hj]. simpl. now apply IH.
Qed.

(** X5.  After an extraction that has returned, the join returns exactly on
    the documents in which every participant whose identifier starts with AGM
    is a mapping whose demographic scan does not raise, or a string or a list
    without 'misc' in it.  A session of the wrong type can no longer stop
    it. *)
Theorem join_returns_iff_joinable audcog_data out :
  extract_awm audcog_data = Ok out ->
  (exists rs, join_age audcog_data = Ok rs) <-> forallb joinable audcog_data = true.
Proof.
  intros H. apply join_fold_succeeds.
  apply extract_fold_succeeds with (acc := ([], [])). eauto.
Qed.

Lemma join_returns_iff_joinable_witness :
  (exists rs, join_age audcog_mixed = Ok rs) /\
  ~ (exists rs, join_age audcog_bare_count = Ok rs).
Proof.
  split.
  - apply (proj2 (join_returns_iff_joinable audcog_mixed _ eq_refl)). reflexivity.
  - intros H.
    apply (proj1 (join_returns_iff_joinable audcog_bare_count _ eq_refl)) in H.
    discriminate H.
Defined.

(** The joined table against the flat table *)

Lemma get_update_agree (d d' other : Dict.t json) k :
  In k (Dict.keys other) \/ Dict.get d k = Dict.get d' k ->
  Dict.get (Dict.update d other) k = Dict.get (Dict.update d' other) k.
Proof.
  unfold Dict.update. revert d d'.
  induction other as [|[k0 v0] other IH]; simpl; intros d d' H.
  - destruct H as [[]|H]. exact H.
  - apply IH. destruct (string_dec k0 k) as [->|Hne].
    + right. now rewrite !get_set_same.
    + destruct H as [[E|Hin]|H]; [contradiction|now left|].
      right. now rewrite !get_set_other.
Qed.

Lemma flat_record_in_extraction audcog records skipped pid pd awm ts fields :
  extract_awm audcog = Ok (records, skipped) ->
  In (pid, JObj pd) audcog ->
  Dict.get pd "awm" = Some (JObj awm) ->
  In (ts, JObj fields) awm ->
  In (Dict.update [("participant_id", JStr pid); ("session_timestamp", JStr ts)]
                  fields) records.
Proof.
  intros H Hin Ha Hts.
  destruct (extract_fold_out _ _ _ H) as [H1 _]. simpl in H1. subst records.
  apply in_flat_map. exists (pid, JObj pd). split; [exact Hin|].
  unfold flat_records_of. simpl. rewrite Ha.
  apply in_flat_map. exists (ts, JObj fields). split; [exact Hts|].
  left. reflexivity.
Qed.

(** X6.  The join adds the five demographic columns and nothing else: every
    joined record has a flat record of the same session, and the two agree on
    every column other than age, sex, computer_type, hearing_aids and
    headphones. *)
Theorem joined_record_extends_a_flat_record audcog_data records skipped rs r :
  extract_awm audcog_data = Ok (records, skipped) ->
  join_age audcog_data = Ok rs ->
  In r rs ->
  exists flat,
    In flat records /\
    forall k, ~ In k demographic_columns -> cell r k = cell flat k.
Proof.
  intros He Hj Hr.
  destruct (join_age_records _ _ _ Hj Hr)
    as (pid & pd & entries & d & awm & ts & fields & Hin & _ & _ & _ & Ha & Hts & ->).
  eexists. split; [exact (flat_record_in_extraction _ _ _ _ _ _ _ _ He Hin Ha Hts)|].
  intros k Hk. unfold cell, joined_record. apply get_update_agree.
  destruct (in_dec string_dec k (Dict.keys fields)) as [Hf|Hf]; [now left|right].
  unfold fixed_fields. simpl.
  repeat match goal with
         | |- context [String.eqb k ?c] => destruct (String.eqb_spec k c)
         end; try reflexivity; exfalso; apply Hk; subst; simpl; tauto.
Qed.

Lemma joined_record_extends_a_flat_record_witness :
  exists flat,
    In flat [[("participant_id", JStr "AGM10234"); ("session_timestamp", JStr "s1");
              ("score", JInt 7)];
             [("participant_id", JStr "AGM10234"); ("session_timestamp", JStr "s2");
              ("score", JInt 9)]] /\
    forall k, ~ In k demographic_columns ->
              cell (joined_record "AGM10234" "s2"
                      (snapshot 45 [("age", JStr "45"); ("sex", JStr "f")])
                      [("score", JInt 9)]) k
              = cell flat k.
Proof.
  refine (joined_record_extends_a_flat_record example_audcog _ [] _ _
            eq_refl eq_refl _).
  right. left. reflexivity.
Defined.

(** X7.  The number of joined records is the sum of the session counts of
    the participants whose identifier starts with AGM and whose demographic
    scan finds an age; each record stands for a session, so a participant
    with several sessions is counted several times. *)
Theorem joined_count_is_sessions_of_prefixed_participants audcog_data rs :
  join_age audcog_data = Ok rs ->
  List.length rs = qualifying_sessions (startswith "AGM") audcog_data /\
  List.length (column (dataframe rs) "age") = List.length rs.
Proof.
  intros H. split.
  - destruct (join_age_parts _ _ H) as (parts & Hparts & ->). clear H.
    unfold qualifying_sessions.
    induction Hparts as [|e part audcog parts He _ IH]; [reflexivity|].
    simpl. rewrite length_app, IH, (join_participant_length _ _ He). reflexivity.
  - unfold column. simpl. apply length_map.
Qed.

Lemma joined_count_is_sessions_of_prefixed_participants_witness :
  List.length [joined_record "AGM10234" "s1"
                 (snapshot 45 [("age", JStr "45"); ("sex", JStr "f")]) [("score", JInt 7)];
               joined_record "AGM10234" "s2"
                 (snapshot 45 [("age", JStr "45"); ("sex", JStr "f")]) [("score", JInt 9)]]
  = qualifying_sessions (startswith "AGM") example_audcog.
Proof.
  exact (proj1 (joined_count_is_sessions_of_prefixed_participants
                  example_audcog _ eq_refl)).
Defined.

(** Documents processed in parts *)

Lemma foldM_app {A B} (f : A -> B -> res A) l1 l2 a :
  foldM f (l1 ++ l2) a = res_bind (foldM f l1 a) (foldM f l2).
Proof.
  revert a. induction l1 as [|x l1 IH]; simpl; intros a; [reflexivity|].
  destruct (f a x); simpl; [apply IH|reflexivity].
Qed.

Lemma join_fold_shift (audcog : dict) acc :
  foldM (fun acc entry => res_bind (join_participant entry)
                            (fun rs => Ok (acc ++ rs)%list)) audcog acc
  = res_bind (join_age audcog) (fun rs => Ok (acc ++ rs)%list).
Proof.
  unfold join_age. revert acc.
  induction audcog as [|entry audcog IH]; simpl; intros acc.
  - now rewrite app_nil_r.
  - destruct (join_participant entry) as [part|]; simpl; [|reflexivity].
    rewrite (IH (acc ++ part)%list), (IH part).
    destruct (foldM _ audcog []); simpl; [|reflexivity].
    now rewrite app_assoc.
Qed.

Lemma extract_step_shift acc entry :
  extract_step acc entry
  = res_bind (extract_step ([], []) entry)
      (fun out => Ok ((fst acc ++ fst out)%list, (snd acc ++ snd out)%list)).
Proof.
  destruct entry as [pid v]. unfold extract_step.
  destruct v as [| | | | | |pd]; simpl; try (now rewrite app_nil_r).
  destruct (Dict.get pd "awm") as [awm|]; simpl; [|now rewrite app_nil_r].
  destruct (py_items awm) as [sessions|]; simpl; [|reflexivity].
  destruct (mapM (awm_record pid) sessions); simpl; [|reflexivity].
  now rewrite app_nil_r.
Qed.

Lemma extract_fold_shift (audcog : dict) acc :
  foldM extract_step audcog acc
  = res_bind (extract_awm audcog)
      (fun out => Ok ((fst acc ++ fst out)%list, (snd acc ++ snd out)%list)).
Proof.
  unfold extract_awm. revert acc.
  induction audcog as [|entry audcog IH]; simpl; intros acc.
  - destruct acc. simpl. now rewrite !app_nil_r.
  - rewrite (extract_step_shift acc entry).
    destruct (extract_step ([], []) entry) as [o|]; simpl; [|reflexivity].
    rewrite (IH (fst acc ++ fst o, snd acc ++ snd o)%list), (IH o).
    destruct (foldM extract_step audcog ([], [])) as [out|]; simpl; [|reflexivity].
    now rewrite !app_assoc.
Qed.

(** X8.  Both loops treat the participants one by one: on a document made
    of two parts they give the results of the parts one after the other, and
    an exception in the first part is the exception of the whole. *)
Theorem loops_distribute_over_parts (part1 part2 : dict) :
  extract_awm (part1 ++ part2)%list
  = res_bind (extract_awm part1) (fun out1 =>
    res_bind (extract_awm part2) (fun out2 =>
    Ok ((fst out1 ++ fst out2)%list, (snd out1 ++ snd out2)%list))) /\
  join_age (part1 ++ part2)%list
  = res_bind (join_age part1) (fun rs1 =>
    res_bind (join_age part2) (fun rs2 => Ok (rs1 ++ rs2)%list)).
Proof.
  split.
  - unfold extract_awm at 1. rewrite foldM_app.
    fold (extract_awm part1).
    destruct (extract_awm part1) as [out1|]; simpl; [|reflexivity].
    apply extract_fold_shift.
  - unfold join_age at 1. rewrite foldM_app.
    fold (join_age part1).
    destruct (join_age part1) as [rs1|]; simpl; [|reflexivity].
    apply join_fold_shift.
Qed.

(** ** The run as a whole *)

Section RunFurther.
Variable plot : list json -> option exn.
Variable describe : DataFrame -> option exn.

(** X9.  The export file is written only after the join has returned at
    least one record with an age that is not missing and the plotting and
    statistics have returned normally; it then holds the frame of all joined
    records, and the saved line has been printed. *)
Theorem export_only_after_plot src df :
  csv_file (run plot describe src) = Some df ->
  exists rs,
    agm_records_with_age (run plot describe src) = Some rs /\
    df = dataframe rs /\
    valid_ages df <> [] /\
    plot (valid_ages df) = None /\
    In Saved (stdout (run plot describe src)).
Proof.
  run_cases; intros [= <-];
    (eexists; split; [reflexivity|]; split; [reflexivity|];
     split; [congruence|]; split; [congruence|];
     simpl; tauto).
Qed.

(** X10.  Conversely the export is written whenever the extraction
    returns, the filter keeps a row, the join returns a record with an age
    that is not missing and the plotting returns.  What the per-participant
    summary does afterwards no longer touches the file: when it raises, the
    run ends with the handler's message and the file stays. *)
Theorem export_written_when_plot_returns top audcog records skipped rs :
  Dict.get top "audcog-online" = Some (JObj audcog) ->
  extract_awm audcog = Ok (records, skipped) ->
  df_empty (filter_agm (dataframe records)) = false ->
  join_age audcog = Ok rs ->
  valid_ages (dataframe rs) <> [] ->
  plot (valid_ages (dataframe rs)) = None ->
  let w := run plot describe (SrcDocument (JObj top)) in
  csv_file w = Some (dataframe rs) /\
  agm_records_with_age w = Some rs /\
  last_line w = Some (match describe (dataframe rs) with
                      | None => Saved
                      | Some e => handler_message e
                      end).
Proof.
  intros Hget Hext Hne Hj Hages Hplot w. subst w.
  unfold last_line.
  script_unfold. cbn [py_items]. script_unfold. rewrite Hget.
  cbn [py_len py_items]. script_unfold. rewrite Hext. script_unfold.
  destruct records as [|r0 records]; [discriminate Hne|].
  rewrite Hne, Hj. script_unfold.
  destruct rs as [|r rs]; [now destruct Hages|].
  destruct (valid_ages (dataframe (r :: rs))) as [|a ages] eqn:Ea;
    [now destruct Hages|].
  rewrite Hplot. script_unfold.
  destruct (describe (dataframe (r :: rs))) as [e|]; script_unfold.
  - destruct e; script_unfold; repeat split.
  - repeat split.
Qed.

(** X11.  A participant whose identifier starts with AGM and whose value is
    a bare count, flag or null keeps the run from ever completing the join:
    whatever else the document holds, it leaves no joined records and no
    export file. *)
Theorem bare_value_under_agm_prevents_export top audcog pid v :
  Dict.get top "audcog-online" = Some (JObj audcog) ->
  In (pid, v) audcog ->
  startswith "AGM" pid = true ->
  bare_value v = true ->
  let w := run plot describe (SrcDocument (JObj top)) in
  agm_records_with_age w = None /\ csv_file w = None.
Proof.
  intros Hget Hin Hp Hv w.
  assert (Hj : agm_records_with_age w = None).
  { destruct (agm_records_with_age w) as [rs|] eqn:E; [|reflexivity].
    destruct (run_joined plot describe _ _ E)
      as (top' & audcog' & records & skipped & Hsrc & Hget' & _ & _ & _ & _ & Hjoin).
    inversion Hsrc; subst top'. rewrite Hget in Hget'. inversion Hget'; subst audcog'.
    destruct (join_age_bare_value _ _ _ Hin Hp Hv _ Hjoin). }
  split; [exact Hj|].
  destruct (csv_file w) as [df|] eqn:E; [|reflexivity].
  destruct (run_csv plot describe _ _ E) as (rs & Hrs & _).
  subst w. congruence.
Qed.

(** X12.  A document of the wrong shape never reaches the extraction.  A
    top level that is no mapping ends in the handler with AttributeError
    right after the line that reports the load, before any key is printed; a
    mapping without the key 'audcog-online' prints its keys twice and ends
    normally; a value under that key that is no mapping ends in the handler,
    with TypeError when it has no length and with AttributeError, after its
    length was printed, when it is a string or a list. *)
Theorem document_of_wrong_shape :
  (forall data,
      is_mapping data = false ->
      run plot describe (SrcDocument data)
      = {| stdout := [LoadSucceeded; UnexpectedMessage AttributeError];
           csv_file := None; skipped_participants := None; awm_records := None;
           df_agm := None; agm_records_with_age := None |}) /\
  (forall top,
      Dict.get top "audcog-online" = None ->
      run plot describe (SrcDocument (JObj top))
      = {| stdout := [LoadSucceeded; Loaded (Dict.keys top); NoKey (Dict.keys top)];
           csv_file := None; skipped_participants := None; awm_records := None;
           df_agm := None; agm_records_with_age := None |}) /\
  (forall top v,
      Dict.get top "audcog-online" = Some v ->
      is_mapping v = false ->
      run plot describe (SrcDocument (JObj top))
      = {| stdout :=
             (LoadSucceeded
              :: Loaded (Dict.keys top)
              :: match py_len v with
                 | Ok n => [FoundParticipants n; UnexpectedMessage AttributeError]
                 | Raise _ => [UnexpectedMessage TypeError]
                 end);
           csv_file := None; skipped_participants := None; awm_records := None;
           df_agm := None; agm_records_with_age := None |}).
Proof.
  split; [|split].
  - intros data H. destruct data; try reflexivity. discriminate H.
  - intros top H. script_unfold. cbn [py_items]. script_unfold. now rewrite H.
  - intros top v Hget H. script_unfold. cbn [py_items]. script_unfold.
    rewrite Hget. destruct v; try reflexivity. discriminate H.
Qed.

Lemma no_sessions_well_shaped v :
  no_sessions v = true -> sessions_well_shaped v = true.
Proof.
  unfold no_sessions, sessions_well_shaped.
  destruct v as [| | | | | |pd]; try reflexivity.
  destruct (Dict.get pd "awm") as [awm|]; [|reflexivity].
  destruct awm as [| | | | | |sessions]; try discriminate.
  destruct sessions; [reflexivity|discriminate].
Qed.

Lemma no_sessions_no_records entry :
  no_sessions (snd entry) = true -> flat_records_of entry = [].
Proof.
  destruct entry as [pid v]. unfold no_sessions, flat_records_of. simpl.
  destruct v as [| | | | | |pd]; try reflexivity.
  destruct (Dict.get pd "awm") as [awm|]; [|reflexivity].
  destruct awm as [| | | | | |sessions]; try reflexivity.
  destruct sessions; [reflexivity|discriminate].
Qed.

Lemma no_sessions_flat (audcog : dict) :
  forallb (fun entry => no_sessions (snd entry)) audcog = true ->
  flat_map flat_records_of audcog = [].
Proof.
  induction audcog as [|e l IH]; simpl; [reflexivity|].
  intros H. apply andb_true_iff in H. destruct H as [He Hl].
  now rewrite (no_sessions_no_records _ He), (IH Hl).
Qed.

Lemma extract_without_sessions audcog :
  forallb (fun entry => no_sessions (snd entry)) audcog = true ->
  extract_awm audcog = Ok ([], flat_map skipped_of audcog).
Proof.
  intros H.
  assert (Hs : exists out, extract_awm audcog = Ok out).
  { apply extract_fold_succeeds. rewrite forallb_forall in *.
    intros e He. apply no_sessions_well_shaped. auto. }
  destruct Hs as [[records skipped] E]. rewrite E.
  destruct (extract_fold_out _ _ _ E) as [H1 H2]. simpl in H1, H2.
  subst. now rewrite (no_sessions_flat _ H).
Qed.

(** X13.  When no participant has a session (the mapping is empty, or
    every participant is no mapping, has no ['awm'] or an empty one) the run
    reports the skipped participants and that no AWM data was found, builds
    no frame and writes no file. *)
Theorem run_without_sessions top audcog :
  Dict.get top "audcog-online" = Some (JObj audcog) ->
  forallb (fun entry => no_sessions (snd entry)) audcog = true ->
  run plot describe (SrcDocument (JObj top))
  = {| stdout := [LoadSucceeded;
                  Loaded (Dict.keys top);
                  FoundParticipants (List.length audcog);
                  FirstIds (firstn 5 (Dict.keys audcog));
                  SkippedReport (List.length (flat_map skipped_of audcog))
                                (firstn 5 (flat_map skipped_of audcog));
                  NoAwm];
       csv_file := None;
       skipped_participants := Some (flat_map skipped_of audcog);
       awm_records := Some [];
       df_agm := None;
       agm_records_with_age := None |}.
Proof.
  intros Hget H.
  script_unfold. cbn [py_items]. script_unfold. rewrite Hget.
  cbn [py_len py_items]. script_unfold.
  rewrite (extract_without_sessions _ H). reflexivity.
Qed.

End RunFurther.

Lemma export_only_after_plot_witness :
  In Saved (stdout (run plot_returns describe_returns (document example_audcog))).
Proof.
  destruct (csv_file (run plot_returns describe_returns (document example_audcog)))
    as [df|] eqn:E; [|vm_compute in E; discriminate E].
  destruct (export_only_after_plot plot_returns describe_returns _ _ E)
    as (rs & _ & _ & _ & _ & HS).
  exact HS.
Defined.

Lemma export_written_when_plot_returns_witness :
  csv_file (run plot_returns (fun _ => Some (LibraryError "describe"))
              (document example_audcog)) <> None /\
  last_line (run plot_returns (fun _ => Some (LibraryError "describe"))
               (document example_audcog))
  = Some (UnexpectedMessage (LibraryError "describe")).
Proof.
  destruct (export_written_when_plot_returns plot_returns
              (fun _ => Some (LibraryError "describe"))
              [("audcog-online", JObj example_audcog)] example_audcog _ [] _
              eq_refl eq_refl eq_refl eq_refl) as (H1 & _ & H3).
  - discriminate.
  - reflexivity.
  - unfold document. split; [congruence|exact H3].
Defined.

Lemma bare_value_under_agm_prevents_export_witness :
  agm_records_with_age
    (run plot_returns describe_returns (document audcog_bare_count)) = None /\
  csv_file (run plot_returns describe_returns (document audcog_bare_count)) = None.
Proof.
  apply (bare_value_under_agm_prevents_export plot_returns describe_returns
           [("audcog-online", JObj audcog_bare_count)] audcog_bare_count
           "AGM20001" (JInt 3)).
  - reflexivity.
  - right. left. reflexivity.
  - reflexivity.
  - reflexivity.
Defined.

Lemma document_of_wrong_shape_witness :
  stdout (run plot_returns describe_returns (SrcDocument (JArr [])))
  = [LoadSucceeded; UnexpectedMessage AttributeError] /\
  stdout (run plot_returns describe_returns
            (SrcDocument (JObj [("audcog-online", JStr "none")])))
  = [LoadSucceeded; Loaded ["audcog-online"]; FoundParticipants 4;
     UnexpectedMessage AttributeError].
Proof.
  split.
  - rewrite (proj1 (document_of_wrong_shape plot_returns describe_returns)
               (JArr []) eq_refl).
    reflexivity.
  - rewrite (proj2 (proj2 (document_of_wrong_shape plot_returns describe_returns))
               [("audcog-online", JStr "none")] (JStr "none") eq_refl eq_refl).
    reflexivity.
Defined.

Lemma run_without_sessions_witness :
  stdout (run plot_returns describe_returns
            (document [("P1", JInt 2); ("P2", JObj [("misc", JObj [])]);
                       ("P3", JObj [("awm", JObj [])])]))
  = [LoadSucceeded; Loaded ["audcog-online"]; FoundParticipants 3;
     FirstIds ["P1"; "P2"; "P3"];
     SkippedReport 2 [SessionsValue "P1" (JInt 2); NoAwmData "P2"]; NoAwm].
Proof.
  unfold document.
  rewrite (run_without_sessions plot_returns describe_returns
             [("audcog-online",
               JObj [("P1", JInt 2); ("P2", JObj [("misc", JObj [])]);
                     ("P3", JObj [("awm", JObj [])])])]
             [("P1", JInt 2); ("P2", JObj [("misc", JObj [])]);
              ("P3", JObj [("awm", JObj [])])] eq_refl eq_refl).
  reflexivity.
Defined.

(** ** The columns of the export *)

Lemma add_column_in cols k c :
  In c (add_column cols k) <-> In c cols \/ c = k.
Proof.
  unfold add_column. destruct (existsb (String.eqb k) cols) eqn:E.
  - split; [tauto|]. intros [H| ->]; [exact H|].
    apply existsb_exists in E. destruct E as (x & Hx & Ex).
    apply String.eqb_eq in Ex. now subst.
  - rewrite in_app_iff. simpl. intuition.
Qed.

Lemma add_column_nodup cols k : NoDup cols -> NoDup (add_column cols k).
Proof.
  intros H. unfold add_column. destruct (existsb (String.eqb k) cols) eqn:E; [exact H|].
  apply NoDup_app; [exact H|repeat constructor; simpl; tauto|].
  intros x Hx [Ek|[]]. subst x.
  assert (Ht : existsb (String.eqb k) cols = true).
  { apply existsb_exists. exists k. split; [exact Hx|apply String.eqb_refl]. }
  congruence.
Qed.

Lemma add_columns_spec ks cols :
  NoDup cols ->
  NoDup (fold_left add_column ks cols) /\
  (forall c, In c (fold_left add_column ks cols) <-> In c cols \/ In c ks) /\
  exists extra, fold_left add_column ks cols = (cols ++ extra)%list.
Proof.
  revert cols. induction ks as [|k ks IH]; simpl; intros cols H.
  - split; [exact H|]. split; [tauto|]. exists []. now rewrite app_nil_r.
  - destruct (IH _ (add_column_nodup cols k H)) as (H1 & H2 & extra & H3).
    split; [exact H1|]. split.
    + intros c. rewrite H2, add_column_in. intuition.
    + rewrite H3. unfold add_column.
      destruct (existsb (String.eqb k) cols); [eauto|].
      exists ([k] ++ extra)%list. now rewrite app_assoc.
Qed.

Lemma add_columns_fresh ks cols :
  NoDup (cols ++ ks) -> fold_left add_column ks cols = (cols ++ ks)%list.
Proof.
  revert cols. induction ks as [|k ks IH]; simpl; intros cols H.
  - now rewrite app_nil_r.
  - assert (E : add_column cols k = (cols ++ [k])%list).
    { unfold add_column. destruct (existsb (String.eqb k) cols) eqn:E; [|reflexivity].
      apply existsb_exists in E. destruct E as (x & Hx & Ex).
      apply String.eqb_eq in Ex. subst x.
      apply NoDup_remove_2 in H. destruct H. apply in_or_app. now left. }
    rewrite E, IH; rewrite <- app_assoc; [reflexivity|exact H].
Qed.

Lemma dataframe_columns_spec (rs : list record) cols :
  NoDup cols ->
  let out := fold_left (fun cols r => fold_left add_column (Dict.keys r) cols) rs cols in
  NoDup out /\
  (forall c, In c out <-> In c cols \/ exists r, In r rs /\ In c (Dict.keys r)) /\
  exists extra, out = (cols ++ extra)%list.
Proof.
  revert cols. induction rs as [|r rs IH]; simpl; intros cols H.
  - split; [exact H|]. split.
    + intros c. split; [tauto|]. intros [Hc|(r & [] & _)]. exact Hc.
    + exists []. now rewrite app_nil_r.
  - destruct (add_columns_spec (Dict.keys r) cols H) as (N1 & I1 & e1 & E1).
    destruct (IH _ N1) as (N2 & I2 & e2 & E2).
    split; [exact N2|]. split.
    + intros c. rewrite I2, I1. split.
      * intros [[Hc|Hc]|(r' & Hr' & Hc)]; eauto.
      * intros [Hc|(r' & [<-|Hr'] & Hc)]; eauto.
    + rewrite E2, E1. exists (e1 ++ e2)%list. now rewrite app_assoc.
Qed.

Lemma keys_set_nodup (d : Dict.t json) k v :
  NoDup (Dict.keys d) -> NoDup (Dict.keys (Dict.set d k v)).
Proof.
  induction d as [|[k' v'] d IH]; simpl; intros H.
  - repeat constructor. simpl. tauto.
  - inversion H as [|? ? Hnot Hd]; subst.
    destruct (String.eqb_spec k k') as [->|Hne]; simpl; [now constructor|].
    constructor; [|auto].
    intros Hin. apply Hnot.
    clear - Hin Hne. induction d as [|[k0 v0] d IH]; simpl in *.
    + destruct Hin as [E|[]]. congruence.
    + destruct (String.eqb_spec k k0) as [->|Hk]; simpl in *; tauto.
Qed.

Lemma keys_update_nodup (d other : Dict.t json) :
  NoDup (Dict.keys d) -> NoDup (Dict.keys (Dict.update d other)).
Proof.
  unfold Dict.update. revert d.
  induction other as [|[k v] other IH]; simpl; intros d H; [exact H|].
  apply IH. now apply keys_set_nodup.
Qed.

Lemma fixed_columns_nodup : NoDup fixed_columns.
Proof. repeat constructor; simpl; intuition discriminate. Qed.

(** X14.  The header of the export begins with the seven fixed columns in
    their order, names no column twice, and has a column for every field of
    every joined record. *)
Theorem export_columns plot describe src df :
  csv_file (run plot describe src) = Some df ->
  (exists extra, df_columns df = (fixed_columns ++ extra)%list) /\
  NoDup (df_columns df) /\
  (forall r k, In r (df_rows df) -> Dict.mem r k = true -> In k (df_columns df)).
Proof.
  intros H. destruct (run_csv plot describe _ _ H) as (rs & Hrs & -> & _).
  destruct (run_joined plot describe _ _ Hrs)
    as (top & audcog & records & skipped & _ & _ & _ & _ & _ & _ & Hj).
  destruct (dataframe_columns_spec rs [] (NoDup_nil _)) as (N & I & _).
  split; [|split; [exact N|]].
  - destruct rs as [|r rs].
    + revert H. run_cases; intros [= E]; congruence.
    + destruct (join_age_records _ _ _ Hj (or_introl eq_refl))
        as (pid & pd & entries & d & awm & ts & fields & _ & _ & _ & _ & _ & _ & ->).
      destruct (keys_update_prefix json (fixed_fields pid ts d) fields) as [e0 E0].
      assert (Nk : NoDup (Dict.keys (joined_record pid ts d fields))).
      { apply keys_update_nodup. apply fixed_columns_nodup. }
      simpl. rewrite (add_columns_fresh _ [] Nk). simpl app.
      destruct (dataframe_columns_spec rs _ Nk) as (_ & _ & e1 & E1).
      simpl in E1. rewrite E1. unfold joined_record. rewrite E0.
      change (Dict.keys (fixed_fields pid ts d)) with fixed_columns.
      exists (e0 ++ e1)%list. now rewrite <- app_assoc.
  - intros r k Hr Hk. apply I. right. exists r. split; [exact Hr|].
    destruct (in_dec string_dec k (Dict.keys r)) as [Hin|Hnot]; [exact Hin|].
    apply mem_false_keys in Hnot. congruence.
Qed.

Lemma export_columns_witness :
  exists extra,
    df_columns (dataframe [joined_record "AGM10234" "s1"
                             (snapshot 45 [("age", JStr "45"); ("sex", JStr "f")])
                             [("score", JInt 7)];
                           joined_record "AGM10234" "s2"
                             (snapshot 45 [("age", JStr "45"); ("sex", JStr "f")])
                             [("score", JInt 9)]])
    = (fixed_columns ++ extra)%list.
Proof.
  assert (E : csv_file (run plot_returns describe_returns (document example_audcog))
              = Some (dataframe
                        [joined_record "AGM10234" "s1"
                           (snapshot 45 [("age", JStr "45"); ("sex", JStr "f")])
                           [("score", JInt 7)];
                         joined_record "AGM10234" "s2"
                           (snapshot 45 [("age", JStr "45"); ("sex", JStr "f")])
                           [("score", JInt 9)]]))
    by (vm_compute; reflexivity).
  exact (proj1 (export_columns plot_returns describe_returns _ _ E)).
Defined.

(** ** The filter *)

Lemma agm_pattern_spec_witness :
  agm_pattern "AGM10234" = true /\
  agm_pattern ("AGM" ++ arabic_indic_1234 ++ newline) = true /\
  ~ (exists rest ds tail,
        "AGM12" = "AGM" ++ rest /\
        utf8_decode rest = (ds ++ tail)%list /\
        forallb is_decimal ds = true /\
        4 <= List.length ds <= 6 /\ (tail = [] \/ tail = [10%N])).
Proof.
  split; [|split].
  - apply (proj2 (agm_pattern_spec "AGM10234")).
    exists "10234", [49; 48; 50; 51; 52]%N, [].
    repeat split; simpl; auto; lia.
  - apply (proj2 (agm_pattern_spec ("AGM" ++ arabic_indic_1234 ++ newline))).
    exists (arabic_indic_1234 ++ newline), [1633; 1634; 1635; 1636]%N, [10%N].
    repeat split; simpl; auto; lia.
  - intros H. apply (proj2 (agm_pattern_spec "AGM12")) in H. discriminate H.
Defined.

(** ** The git helper, further *)

Lemma stage_commit_push_returns {OS} (exec : list string -> OS -> Git.proc_result * OS)
  commit_message st :
  exists st', Git.stage_commit_push exec commit_message st = (st', inr tt).
Proof.
  unfold Git.stage_commit_push, Git.gbind, Git.catch_called, Git.catch_not_found,
    Git.subprocess_run, Git.emit.
  cbn [fst snd].
  repeat (case_step; cbn [fst snd] in *; try discriminate).
  all: repeat match goal with
              | H : (_, _) = (_, _) |- _ => inversion H; clear H; subst
              end.
  all: try discriminate; eauto.
  all: destruct u; eauto.
Qed.

(** X17.  The exit status tells only whether the arguments were there and
    whether setting up the remote raised: once the remote is set up the
    status is 0, whatever staging, committing and pushing do. *)
Theorem exit_status_ignores_stage_commit_push
  {OS} (exec : list string -> OS -> Git.proc_result * OS) argv os :
  snd (Git.main exec argv os)
  = if (2 <? List.length argv)%nat
    then match snd (Git.ensure_remote exec (last argv "") (os, [])) with
         | inr _ => 0%Z
         | inl _ => 1%Z
         end
    else 1%Z.
Proof.
  unfold Git.main. destruct (2 <? List.length argv)%nat; [|reflexivity].
  unfold Git.push_to_github, Git.gbind.
  destruct (Git.ensure_remote exec (last argv "") (os, [])) as [st [e|[]]];
    [reflexivity|].
  destruct (stage_commit_push_returns exec
              (Git.join_words (removelast (tl argv))) st) as [st' ->].
  reflexivity.
Qed.

(** X18.  The remote is added with the given URL when asking for the URL of
    origin fails, and also when origin exists but setting its URL fails: the
    handler of the first [try] covers both commands. *)
Theorem remote_is_added_after_either_failure
  {OS} (exec : list string -> OS -> Git.proc_result * OS) url os :
  (forall rc out err os1,
      exec ["git"; "remote"; "get-url"; "origin"] os = (Git.Exited rc out err, os1) ->
      rc <> 0%Z ->
      Git.ensure_remote exec url (os, [])
      = Git.subprocess_run exec false ["git"; "remote"; "add"; "origin"; url]
          (os1,
           [Git.Stdout "No remote 'origin' found. Adding the remote with the provided URL."])) /\
  (forall out err os1 rc out2 err2 os2,
      exec ["git"; "remote"; "get-url"; "origin"] os = (Git.Exited 0 out err, os1) ->
      exec ["git"; "remote"; "set-url"; "origin"; url] os1
      = (Git.Exited rc out2 err2, os2) ->
      rc <> 0%Z ->
      Git.ensure_remote exec url (os, [])
      = Git.subprocess_run exec false ["git"; "remote"; "add"; "origin"; url]
          (os2,
           [Git.Stdout "Remote 'origin' already exists. Updating its URL.";
            Git.ChildOutput ["git"; "remote"; "set-url"; "origin"; url] out2 err2;
            Git.Stdout "No remote 'origin' found. Adding the remote with the provided URL."])).
Proof.
  split.
  - intros rc out err os1 H1 Hrc.
    unfold Git.ensure_remote, Git.catch_called, Git.gbind.
    unfold Git.subprocess_run at 1. cbn [fst snd]. rewrite H1.
    apply Z.eqb_neq in Hrc. rewrite Hrc. reflexivity.
  - intros out err os1 rc out2 err2 os2 H1 H2 Hrc.
    unfold Git.ensure_remote, Git.catch_called, Git.gbind.
    unfold Git.subprocess_run at 1. cbn [fst snd]. rewrite H1.
    cbn [Z.eqb Git.emit fst snd app].
    unfold Git.subprocess_run at 1. cbn [fst snd]. rewrite H2.
    apply Z.eqb_neq in Hrc. rewrite Hrc. reflexivity.
Qed.

Lemma remote_is_added_after_either_failure_witness :
  snd (fst (Git.ensure_remote exec_no_remote "https://example.org/repo.git" (tt, [])))
  = [Git.Stdout "No remote 'origin' found. Adding the remote with the provided URL.";
     Git.ChildOutput ["git"; "remote"; "add"; "origin"; "https://example.org/repo.git"]
       "" ""] /\
  snd (fst (Git.ensure_remote exec_set_url_fails "https://example.org/repo.git" (tt, [])))
  = [Git.Stdout "Remote 'origin' already exists. Updating its URL.";
     Git.ChildOutput ["git"; "remote"; "set-url"; "origin"; "https://example.org/repo.git"]
       "" "";
     Git.Stdout "No remote 'origin' found. Adding the remote with the provided URL.";
     Git.ChildOutput ["git"; "remote"; "add"; "origin"; "https://example.org/repo.git"]
       "" ""].
Proof.
  split.
  - rewrite (proj1 (remote_is_added_after_either_failure exec_no_remote
                      "https://example.org/repo.git" tt)
               2%Z "" "error: No such remote 'origin'" tt eq_refl);
      [reflexivity|discriminate].
  - rewrite (proj2 (remote_is_added_after_either_failure exec_set_url_fails
                      "https://example.org/repo.git" tt)
               "" "" tt 3%Z "" "" tt eq_refl eq_refl);
      [reflexivity|discriminate].
Defined.

Lemma removelast_snoc {A} (l : list A) x : removelast (l ++ [x]) = l.
Proof.
  induction l as [|y l IH]; simpl; [reflexivity|].
  rewrite IH. destruct l; reflexivity.
Qed.

Lemma last_snoc {A} (l : list A) x d : last (l ++ [x]) d = x.
Proof.
  induction l as [|y l IH]; simpl; [reflexivity|].
  rewrite IH. destruct l; reflexivity.
Qed.

(** X19.  Everything between the script name and the last argument is the
    commit message, joined by single spaces, and the last argument is the
    remote URL, however many words the message has. *)
Theorem arguments_are_message_then_url
  {OS} (exec : list string -> OS -> Git.proc_result * OS) script words url os :
  words <> [] ->
  Git.main exec (script :: words ++ [url])%list os
  = match Git.push_to_github exec (String.concat " " words) url (os, []) with
    | (st, inr _) => (st, 0%Z)
    | (st, inl _) => ((fst st, (snd st ++ [Git.Traceback])%list), 1%Z)
    end.
Proof.
  intros Hw. unfold Git.main.
  assert (Hlen : (2 <? List.length (script :: words ++ [url]))%nat = true).
  { apply Nat.ltb_lt. simpl. rewrite length_app. simpl.
    destruct words; [contradiction|simpl; lia]. }
  rewrite Hlen. unfold Git.join_words.
  change (tl (script :: words ++ [url])%list) with (words ++ [url])%list.
  rewrite removelast_snoc.
  change (script :: words ++ [url])%list with ((script :: words) ++ [url])%list.
  rewrite last_snoc. reflexivity.
Qed.

Lemma arguments_are_message_then_url_witness :
  snd (fst (Git.main exec_add_fails
              ["push_to_github.py"; "fix"; "the"; "bug"; "https://example.org/repo.git"]
              tt))
  = snd (fst (Git.main exec_add_fails
                ["push_to_github.py"; "fix the bug"; "https://example.org/repo.git"]
                tt)).
Proof.
  assert (H3 : ["fix"; "the"; "bug"] <> []) by discriminate.
  assert (H1 : ["fix the bug"] <> []) by discriminate.
  pose proof (arguments_are_message_then_url exec_add_fails "push_to_github.py"
                ["fix"; "the"; "bug"] "https://example.org/repo.git" tt H3) as E3.
  pose proof (arguments_are_message_then_url exec_add_fails "push_to_github.py"
                ["fix the bug"] "https://example.org/repo.git" tt H1) as E1.
  cbn [app] in E3, E1. rewrite E3, E1. reflexivity.
Defined.

